(** * DiverseSelector.feature: descriptor and fingerprint generation

    A shallow embedding of [DiverseSelector/feature.py].  The module is glue
    code over RDKit, Mordred, PaDEL, numpy and pandas; the parts of those
    libraries that the module calls are collected in the record [Toolkit]
    and every theorem is stated for an arbitrary toolkit, with the facts it
    needs about the toolkit as explicit hypotheses.  What is modelled in
    full is what the module itself does: selector dispatch, Python's
    argument binding at the two call sites that unpack [kwargs], the
    construction of the tables, exceptions, and the temporary file of the
    PaDEL path. *)

From Stdlib Require Import String Ascii List ZArith Bool Lia.
From stdpp Require Import base option list gmap strings pretty fin_maps.

Local Open Scope string_scope.

(** ** Python strings

    A [str] is modelled by a Rocq [string], its characters read as the code
    points below 256.  [str.upper] and [str.lower] are the ASCII case
    mappings.  On such strings they decide the selector tests of this
    module as Python's mappings do: Python lowers no character outside
    ASCII to an ASCII letter, and the only one it raises to ASCII letters
    is U+00DF, to "SS", which occurs in none of the fingerprint names. *)

Definition ascii_upper (c : ascii) : ascii :=
  let n := N_of_ascii c in
  if ((97 <=? n) && (n <=? 122))%N then ascii_of_N (n - 32) else c.

Definition ascii_lower (c : ascii) : ascii :=
  let n := N_of_ascii c in
  if ((65 <=? n) && (n <=? 90))%N then ascii_of_N (n + 32) else c.

Fixpoint upper (s : string) : string :=
  match s with
  | EmptyString => EmptyString
  | String c s' => String (ascii_upper c) (upper s')
  end.

Fixpoint lower (s : string) : string :=
  match s with
  | EmptyString => EmptyString
  | String c s' => String (ascii_lower c) (lower s')
  end.

(** [s.startswith(p)] *)
Definition startswith (p s : string) : bool := String.prefix p s.

(** [x in l] for a list of strings. *)
Definition str_in (x : string) (l : list string) : bool :=
  existsb (String.eqb x) l.

(** ** Exceptions and results *)

Inductive exn : Type :=
  | ValueError (msg : string)
  | TypeError (msg : string)
  | AttributeError (msg : string)
  | KeyError (msg : string)
  | NotImplementedError (msg : string)
  | DeprecationWarning (msg : string)
  | AssertionError
  | FileNotFoundError (path : string)
  | IndexError (msg : string)
  | RuntimeError (msg : string).

Inductive Result (A : Type) : Type :=
  | Ok (a : A)
  | Raise (e : exn).
Arguments Ok {A} a.
Arguments Raise {A} e.

#[global] Instance Result_ret : MRet Result := fun A a => Ok a.
#[global] Instance Result_bind : MBind Result := fun A B f r =>
  match r with
  | Ok a => f a
  | Raise e => Raise e
  end.

(** A list comprehension [[f x for x in l]] whose body may raise: elements
    are evaluated left to right and the first exception aborts it. *)
Fixpoint comprehension {A B} (f : A -> Result B) (l : list A) : Result (list B) :=
  match l with
  | [] => Ok []
  | x :: l' => y ← f x; ys ← comprehension f l'; Ok (y :: ys)
  end.

Definition is_Ok {A} (r : Result A) : Prop := exists a, r = Ok a.

(** ** RDKit molecules

    Of a molecule the module reads its property dictionary and hands the
    molecule to the toolkit.  Properties follow RDKit's [RDProps]: a
    dictionary from names to values, a property being private when its name
    starts with an underscore, computed when it is listed in the
    molecule's computed-property list.  [mol_block] stands for the
    chemical structure, which only the toolkit inspects. *)

Record RDKitMol : Type := {
  mol_props : gmap string string;
  mol_computed : list string;
  mol_block : string
}.

(** [mol.GetPropsAsDict(includePrivate, includeComputed)].  RDKit's
    signature is [GetPropsAsDict(includePrivate=False,
    includeComputed=False, autoConvertStrings=True)]. *)
Definition GetPropsAsDict (includePrivate includeComputed : bool)
    (mol : RDKitMol) : gmap string string :=
  filter (fun kv => Is_true ((includePrivate || negb (startswith "_" kv.1))
                             && (includeComputed || negb (str_in kv.1 (mol_computed mol)))))
         (mol_props mol).

(** [mol.HasProp(name)] and [mol.GetProp(name)] *)
Definition HasProp (mol : RDKitMol) (name : string) : bool :=
  bool_decide (is_Some (mol_props mol !! name)).

Definition GetProp (mol : RDKitMol) (name : string) : Result string :=
  match mol_props mol !! name with
  | Some v => Ok v
  | None => Raise (KeyError name)
  end.

(** ** Tables

    A cell of a table: a Python int, a float (kept as its IEEE-754 binary64
    bit pattern: the module does no float arithmetic), a string, or a
    missing value. *)

Inductive Cell : Type :=
  | CInt (z : Z)
  | CFloat (bits : Z)
  | CStr (s : string)
  | CMissing.

(** A pandas axis: the default [RangeIndex(n)] or explicit labels. *)
Inductive Axis : Type :=
  | RangeIndex (n : nat)
  | Index (labels : list string).

Record DataFrame : Type := {
  df_index : Axis;
  df_columns : Axis;
  df_values : list (list Cell)
}.

(** A two-dimensional numpy array, with its second dimension kept beside
    the rows so that an array without rows still has a shape. *)
Record ndarray : Type := {
  nd_cols : nat;
  nd_rows : list (list Cell)
}.

Definition ExplicitBitVect : Type := list bool.

Definition bit_cell (b : bool) : Cell := CInt (if b then 1 else 0).

(** A descriptor function of [Descriptors.descList]: [function(mol)] and
    [function(mol, avg=True)]. *)
Record DescFn : Type := {
  fn : RDKitMol -> Result Cell;
  fn_avg : RDKitMol -> Result Cell
}.

(** [rdMHFPFingerprint.MHFPEncoder(n_permutations, seed)] *)
Record MHFPEncoder : Type := {
  n_permutations : Z;
  seed : Z
}.

(** ** The external libraries *)

Record Toolkit : Type := {
  (** [Chem.MolToSmiles(mol)] *)
  MolToSmiles : RDKitMol -> string;
  (** [Descriptors.descList] *)
  descList : list (string * DescFn);
  (** [encoder.EncodeSECFPMol(mol, radius=, rings=, isomeric=, kekulize=, min_radius=)] *)
  EncodeSECFPMol : MHFPEncoder -> RDKitMol -> Z -> bool -> bool -> bool -> Z ->
                   Result ExplicitBitVect;
  (** [AllChem.GetMorganFingerprintAsBitVect(mol=, radius=, nBits=, useChirality=, useFeatures=)] *)
  GetMorganFingerprintAsBitVect : RDKitMol -> Z -> Z -> bool -> bool -> Result ExplicitBitVect;
  (** [Chem.rdmolops.RDKFingerprint(mol=, minPath=, maxPath=, fpSize=, nBitsPerHash=,
      useHs=, tgtDensity=, minSize=, branchedPaths=, useBondOrder=)] *)
  RDKFingerprint : RDKitMol -> Z -> Z -> Z -> Z -> bool -> Z -> Z -> bool -> bool ->
                   Result ExplicitBitVect;
  (** [MACCSkeys.GenMACCSKeys(mol)] *)
  GenMACCSKeys : RDKitMol -> Result ExplicitBitVect;
  (** [Calculator(descriptors, ignore_3D=).pandas(mols)] *)
  Calculator_pandas : bool -> list RDKitMol -> Result DataFrame;
  (** [padelpy.from_sdf] run on a structure-data file holding the given
      records, with [descriptors=True, fingerprints=False]: one dictionary
      per row of PaDEL's output. *)
  from_sdf : list RDKitMol -> Result (list (list (string * string)));
  (** numpy's conversion of a value stored into a float64 array *)
  float64 : Cell -> Cell
}.

(** ** Python values and argument binding

    The values that travel through the two calls that unpack [kwargs]. *)

Inductive PyVal : Type :=
  | VNone
  | VBool (b : bool)
  | VInt (z : Z)
  | VStr (s : string)
  | VMol (mol : RDKitMol)
  | VMols (mols : list RDKitMol)
  | VStrs (names : list string)
  | VDescList (desc_list : list (string * DescFn))
  | VMethod (name : string).

(** A [**kwargs] dictionary, in insertion order; keys are distinct. *)
Definition Kwargs : Type := list (string * PyVal).

Definition keys (kwargs : Kwargs) : list string := map fst kwargs.

(** [key in kwargs] *)
Definition dict_contains (key : string) (kwargs : Kwargs) : bool :=
  str_in key (keys kwargs).

(** Truth value of an object, and the identity test [v is False]. *)
Definition truthy (v : PyVal) : bool :=
  match v with
  | VNone => false
  | VBool b => b
  | VInt z => negb (z =? 0)%Z
  | VStr s => negb (String.eqb s "")
  | VMol _ => true
  | VMols l => negb (Nat.eqb (length l) 0)
  | VStrs l => negb (Nat.eqb (length l) 0)
  | VDescList l => negb (Nat.eqb (length l) 0)
  | VMethod _ => true
  end.

Definition is_False (v : PyVal) : bool :=
  match v with
  | VBool false => true
  | _ => false
  end.

(** A [def f(p1, ..., pn=default, **kwargs)]: positional-or-keyword
    parameters with optional defaults, and a [**kwargs] catch-all (every
    function bound below has one; none has [*args]). *)
Record Signature : Type := {
  sig_name : string;
  sig_params : list (string * option PyVal)
}.

(** The slots of the parameters while a call is bound. *)
Definition Slots : Type := list (string * option PyVal).

Fixpoint fill_positional (params : list string) (args : list PyVal) : Slots :=
  match params, args with
  | [], _ => []
  | p :: ps, [] => (p, None) :: fill_positional ps []
  | p :: ps, a :: args' => (p, Some a) :: fill_positional ps args'
  end.

Fixpoint find_slot (k : string) (slots : Slots) : option (option PyVal) :=
  match slots with
  | [] => None
  | (p, v) :: slots' => if String.eqb p k then Some v else find_slot k slots'
  end.

Fixpoint set_slot (k : string) (v : PyVal) (slots : Slots) : Slots :=
  match slots with
  | [] => []
  | (p, old) :: slots' =>
      if String.eqb p k then (p, Some v) :: slots' else (p, old) :: set_slot k v slots'
  end.

(** Keyword arguments, in call order: a keyword naming a parameter fills
    its slot, or is an error when the slot is taken; any other keyword goes
    to [**kwargs]. *)
Fixpoint bind_keywords (f : string) (kw : Kwargs) (slots : Slots) (extra : Kwargs)
    : Result (Slots * Kwargs) :=
  match kw with
  | [] => Ok (slots, extra)
  | (k, v) :: kw' =>
      match find_slot k slots with
      | None => bind_keywords f kw' slots (extra ++ [(k, v)])%list
      | Some None => bind_keywords f kw' (set_slot k v slots) extra
      | Some (Some _) =>
          Raise (TypeError (f +:+ "() got multiple values for argument '" +:+ k +:+ "'"))
      end
  end.

(** Unfilled slots take their default; a parameter without one is missing
    (CPython names all missing parameters in one message, here the first). *)
Fixpoint apply_defaults (f : string) (defaults : list (option PyVal)) (slots : Slots)
    : Result (list PyVal) :=
  match slots with
  | [] => Ok []
  | (p, filled) :: slots' =>
      match filled, hd None defaults with
      | Some v, _ => vs ← apply_defaults f (tl defaults) slots'; Ok (v :: vs)
      | None, Some d => vs ← apply_defaults f (tl defaults) slots'; Ok (d :: vs)
      | None, None =>
          Raise (TypeError (f +:+ "() missing 1 required positional argument: '" +:+ p +:+ "'"))
      end
  end.

(** Binding of a call, in the order CPython follows: positional
    arguments, keywords, the count of positional arguments, defaults.  The
    result is the value of each parameter and the [**kwargs] dictionary. *)
Definition bind (sg : Signature) (args : list PyVal) (kw : Kwargs)
    : Result (list PyVal * Kwargs) :=
  let slots := fill_positional (map fst (sig_params sg)) args in
  '(slots, extra) ← bind_keywords (sig_name sg) kw slots [];
  if Nat.ltb (length (sig_params sg)) (length args) then
    Raise (TypeError (sig_name sg +:+ "() takes too many positional arguments"))
  else
    vals ← apply_defaults (sig_name sg) (map snd (sig_params sg)) slots;
    Ok (vals, extra).

(** ** Python dictionaries in insertion order *)

Fixpoint dict_set {V} (k : string) (v : V) (d : list (string * V)) : list (string * V) :=
  match d with
  | [] => [(k, v)]
  | (k', v') :: d' =>
      if String.eqb k' k then (k', v) :: d' else (k', v') :: dict_set k v d'
  end.

(** A dict comprehension [{d[0]: d[1] for d in items}] *)
Definition dict_of {V} (items : list (string * V)) : list (string * V) :=
  fold_left (fun d kv => dict_set kv.1 kv.2 d) items [].

Fixpoint dict_get {V} (k : string) (d : list (string * V)) : option V :=
  match d with
  | [] => None
  | (k', v) :: d' => if String.eqb k' k then Some v else dict_get k d'
  end.

Definition dict_item {V} (d : list (string * V)) (k : string) : Result V :=
  match dict_get k d with
  | Some v => Ok v
  | None => Raise (KeyError k)
  end.

(** ** numpy and pandas constructors *)

(** [np.zeros((n, k))] *)
Definition np_zeros (n k : nat) : ndarray :=
  {| nd_cols := k; nd_rows := replicate n (replicate k (CFloat 0)) |}.

(** [arr[idx, :] = features] for a float64 array and a list with one entry
    per column (the only shape this module assigns). *)
Definition nd_set_row (tk : Toolkit) (arr : ndarray) (idx : nat) (features : list Cell)
    : Result ndarray :=
  if negb (Nat.ltb idx (length (nd_rows arr))) then
    Raise (IndexError "index is out of bounds for axis 0")
  else if negb (Nat.eqb (length features) (nd_cols arr)) then
    Raise (ValueError "could not broadcast input array")
  else
    Ok {| nd_cols := nd_cols arr;
          nd_rows := <[idx := map (float64 tk) features]> (nd_rows arr) |}.

(** [np.array(fps)] for a list of bit vectors: an empty list gives an empty
    one-dimensional array, vectors of one length a two-dimensional array of
    their bits; vectors of different lengths are refused (numpy 1.24 and
    later). *)
Inductive nparray : Type :=
  | Array1 (cells : list Cell)
  | Array2 (a : ndarray).

Definition np_array (fps : list ExplicitBitVect) : Result nparray :=
  match fps with
  | [] => Ok (Array1 [])
  | fp :: _ =>
      if forallb (fun fp' => Nat.eqb (length fp') (length fp)) fps then
        Ok (Array2 {| nd_cols := length fp; nd_rows := map (map bit_cell) fps |})
      else
        Raise (ValueError "setting an array element with a sequence")
  end.

(** [pd.DataFrame(arr, index=index)] *)
Definition pd_DataFrame_indexed (arr : nparray) (index : list string) : Result DataFrame :=
  let '(ncols, rows) :=
    match arr with
    | Array1 cells => (1, map (fun c => [c]) cells)
    | Array2 a => (nd_cols a, nd_rows a)
    end in
  if Nat.eqb (length index) (length rows) then
    Ok {| df_index := Index index; df_columns := RangeIndex ncols; df_values := rows |}
  else
    Raise (ValueError "Shape of passed values does not match the index").

(** [pd.DataFrame(data=arr, columns=columns)] for a two-dimensional array *)
Definition pd_DataFrame_array (arr : ndarray) (columns : list string) : Result DataFrame :=
  if Nat.eqb (length columns) (nd_cols arr) then
    Ok {| df_index := RangeIndex (length (nd_rows arr));
          df_columns := Index columns;
          df_values := nd_rows arr |}
  else
    Raise (ValueError "Shape of passed values does not match the columns").

(** [pd.DataFrame(rows, columns=columns)] for a list of lists *)
Definition pd_DataFrame_rows (rows : list (list Cell)) (columns : list string)
    : Result DataFrame :=
  if forallb (fun r => Nat.eqb (length r) (length columns)) rows then
    Ok {| df_index := RangeIndex (length rows);
          df_columns := Index columns;
          df_values := rows |}
  else
    Raise (ValueError "columns passed do not match the data").

(** [pd.DataFrame(records)] for a list of dictionaries: the columns are the
    keys in order of first appearance, a key absent from a record gives a
    missing value. *)
Fixpoint union_keys (seen ks : list string) : list string :=
  match ks with
  | [] => seen
  | k :: ks' => if str_in k seen then union_keys seen ks'
                else union_keys (seen ++ [k])%list ks'
  end.

Definition record_row (columns : list string) (record : list (string * string)) : list Cell :=
  map (fun c => match dict_get c record with
                | Some v => CStr v
                | None => CMissing
                end) columns.

Definition pd_DataFrame_records (records : list (list (string * string))) : DataFrame :=
  let columns := union_keys [] (concat (map (map fst) records)) in
  {| df_index := RangeIndex (length records);
     df_columns := Index columns;
     df_values := map (record_row columns) records |}.

(** ** The file system

    State of the working directory: the structure-data files by name, each
    with the records written to it.  A computation returns a result or an
    exception together with the state it leaves behind. *)

Definition M (A : Type) : Type :=
  gmap string (list RDKitMol) -> Result A * gmap string (list RDKitMol).

#[global] Instance M_ret : MRet M := fun A a fs => (Ok a, fs).
#[global] Instance M_bind : MBind M := fun A B f m fs =>
  match m fs with
  | (Ok a, fs') => f a fs'
  | (Raise e, fs') => (Raise e, fs')
  end.

Definition lift {A} (r : Result A) : M A := fun fs => (r, fs).

Fixpoint for_each {A} (body : A -> M unit) (l : list A) : M unit :=
  match l with
  | [] => mret tt
  | x :: l' => _ ← body x; for_each body l'
  end.

(** [Chem.SDWriter(path)] creates or truncates the file, [writer.write(mol)]
    appends a record, [writer.close()] ends the writing.  The directory is
    taken to be writable. *)
Definition SDWriter (path : string) : M string :=
  fun fs => (Ok path, <[path := []]> fs).

Definition SDWriter_write (writer : string) (mol : RDKitMol) : M unit :=
  fun fs => (Ok tt, alter (fun records => records ++ [mol])%list writer fs).

Definition SDWriter_close (writer : string) : M unit := mret tt.

(** [os.remove(path)] *)
Definition os_remove (path : string) : M unit :=
  fun fs => match fs !! path with
            | Some _ => (Ok tt, delete path fs)
            | None => (Raise (FileNotFoundError path), fs)
            end.

(** [from_sdf(sdf_file=path, output_csv=None, descriptors=True,
    fingerprints=False, timeout=None)]: the tool reads the file and leaves
    it in place. *)
Definition padelpy_from_sdf (tk : Toolkit) (sdf_file : string)
    : M (list (list (string * string))) :=
  fun fs => match fs !! sdf_file with
            | Some records => (from_sdf tk records, fs)
            | None => (Raise (FileNotFoundError sdf_file), fs)
            end.

(** ** [_rdkit_descriptors_low] *)

Definition sig__rdkit_descriptors_low : Signature :=
  {| sig_name := "_rdkit_descriptors_low";
     sig_params := [("mol", None); ("desc_list", None); ("ipc_avg", Some (VBool true))] |}.

(** The loop over [desc_list], appending to [features]. *)
Fixpoint features_loop (mol : RDKitMol) (ipc_avg : PyVal)
    (desc_list : list (string * DescFn)) (features : list Cell) : Result (list Cell) :=
  match desc_list with
  | [] => Ok features
  | (desc_name, function) :: rest =>
      feature ← (if String.eqb desc_name "Ipc" && truthy ipc_avg
                 then fn_avg function mol
                 else fn function mol);
      features_loop mol ipc_avg rest (features ++ [feature])%list
  end.

(** The body, on the values of its parameters and its [**kwargs]. *)
Definition _rdkit_descriptors_low (mol : RDKitMol) (desc_list : list (string * DescFn))
    (ipc_avg : PyVal) (kwargs : Kwargs) : Result (list Cell) :=
  if dict_contains "mol" kwargs then
    Raise (DeprecationWarning
             "Mol is being phased out as a parameter, please pass RDKit mol object instead.")
  else
    features_loop mol ipc_avg desc_list [].

(** A call of the function: binding, then the body.  An argument that is
    not of the annotated type is refused here; Python would fail on its
    first use. *)
Definition call__rdkit_descriptors_low (args : list PyVal) (kw : Kwargs)
    : Result (list Cell) :=
  '(vals, kwargs) ← bind sig__rdkit_descriptors_low args kw;
  match vals with
  | [VMol mol; VDescList desc_list; ipc_avg] =>
      _rdkit_descriptors_low mol desc_list ipc_avg kwargs
  | _ => Raise (TypeError "argument of unexpected type")
  end.

(** ** [feature_filtering]: a stub whose body is [pass]; it returns [None]. *)
Definition feature_filtering : PyVal := VNone.

(** ** [class DescriptorGenerator] *)

Module DescriptorGenerator.

Record t : Type := {
  mols : list RDKitMol;
  desc_type : string;
  use_fragment : bool;
  ipc_avg : bool
}.

(** [__init__], with its defaults written out by the caller. *)
Definition __init__ (mols : list RDKitMol) (desc_type : string)
    (use_fragment ipc_avg : bool) : t :=
  {| mols := mols; desc_type := desc_type;
     use_fragment := use_fragment; ipc_avg := ipc_avg |}.

Definition mordred_descriptors (tk : Toolkit) (mols : list RDKitMol) : Result DataFrame :=
  (* calc = Calculator(descriptors, ignore_3D=False) *)
  df_features ← Calculator_pandas tk false mols;
  Ok df_features.

Definition padelpy_descriptors (tk : Toolkit) (mols : list RDKitMol) : M DataFrame :=
  writer ← SDWriter "padelpy_out_tmp.sdf";
  _ ← for_each (SDWriter_write writer) mols;
  _ ← SDWriter_close writer;
  desc ← padelpy_from_sdf tk "padelpy_out_tmp.sdf";
  let df_features := pd_DataFrame_records desc in
  _ ← os_remove "padelpy_out_tmp.sdf";
  mret df_features.

Definition sig_rdkit_descriptors : Signature :=
  {| sig_name := "rdkit_descriptors";
     sig_params := [("mols", None); ("use_fragment", Some (VBool true));
                    ("ipc_avg", Some (VBool true))] |}.

(** The loop over [Descriptors.descList] that fills [descriptor_types] and
    [desc_list]. *)
Definition parse_descList (use_fragment : PyVal) (descList : list (string * DescFn))
    : list string * list (string * DescFn) :=
  fold_left
    (fun acc d =>
       if is_False use_fragment && startswith "fr_" d.1 then acc
       else ((acc.1 ++ [d.1])%list, (acc.2 ++ [d])%list))
    descList ([], []).

Definition rdkit_descriptors (tk : Toolkit) (mols : list RDKitMol)
    (use_fragment ipc_avg : PyVal) (kwargs : Kwargs) : Result DataFrame :=
  let '(descriptor_types, desc_list) := parse_descList use_fragment (descList tk) in
  if negb (Nat.eqb (length descriptor_types) (length desc_list)) then Raise AssertionError
  else
    arr_features ← comprehension
      (fun mol => call__rdkit_descriptors_low
                    (VMol mol :: map VStr (keys kwargs))
                    [("desc_list", VDescList desc_list); ("ipc_avg", ipc_avg)])
      mols;
    pd_DataFrame_rows arr_features descriptor_types.

Definition call_rdkit_descriptors (tk : Toolkit) (args : list PyVal) (kw : Kwargs)
    : Result DataFrame :=
  '(vals, kwargs) ← bind sig_rdkit_descriptors args kw;
  match vals with
  | [VMols mols; use_fragment; ipc_avg] =>
      rdkit_descriptors tk mols use_fragment ipc_avg kwargs
  | _ => Raise (TypeError "argument of unexpected type")
  end.

(** The loop of [rdkit_fragment_descriptors] over [enumerate(mols)],
    started at index [idx]. *)
Fixpoint fragment_loop (tk : Toolkit) (fragments : list (string * DescFn))
    (idx : nat) (mols : list RDKitMol) (frag_features : ndarray) : Result ndarray :=
  match mols with
  | [] => Ok frag_features
  | mol :: rest =>
      features ← comprehension
        (fun d => function ← dict_item fragments d; fn function mol)
        (map fst fragments);
      frag_features' ← nd_set_row tk frag_features idx features;
      fragment_loop tk fragments (S idx) rest frag_features'
  end.

Definition rdkit_fragment_descriptors (tk : Toolkit) (mols : list RDKitMol)
    : Result DataFrame :=
  let fragments := dict_of (drop 115 (descList tk)) in
  let frag_features := np_zeros (length mols) (length fragments) in
  frag_features ← fragment_loop tk fragments 0 mols frag_features;
  let feature_names := map fst (drop 115 (descList tk)) in
  pd_DataFrame_array frag_features feature_names.

Definition compute_descriptor (tk : Toolkit) (self : t) (kwargs : Kwargs) : M DataFrame :=
  if String.eqb (lower (desc_type self)) "mordred" then
    lift (mordred_descriptors tk (mols self))
  else if String.eqb (lower (desc_type self)) "padel" then
    padelpy_descriptors tk (mols self)
  else if String.eqb (lower (desc_type self)) "rdkit" then
    lift (call_rdkit_descriptors tk
            (VMols (mols self) :: map VStr (keys kwargs))
            [("use_fragment", VBool (use_fragment self));
             ("ipc_avg", VBool (ipc_avg self))])
  else if String.eqb (lower (desc_type self)) "rdkit_frag" then
    lift (rdkit_fragment_descriptors tk (mols self))
  else
    lift (Raise (ValueError ("Unknown descriptor type " +:+ desc_type self +:+ "."))).

End DescriptorGenerator.

(** ** [class FingerprintGenerator] *)

(** The text an f-string puts for a value.  Objects whose text holds a
    memory address get a placeholder. *)
Definition format_value (v : PyVal) : string :=
  match v with
  | VNone => "None"
  | VBool true => "True"
  | VBool false => "False"
  | VInt z => pretty z
  | VStr s => s
  | _ => "<object>"
  end.

Module FingerprintGenerator.

Record t : Type := {
  mols : list RDKitMol;
  fp_type : string;
  n_bits : Z;
  radius : Z;
  min_radius : Z;
  random_seed : Z;
  rings : bool;
  isomeric : bool;
  kekulize : bool;
  mol_names : list string
}.

(** The name given to a molecule by [__init__]. *)
Definition mol_name (tk : Toolkit) (mol : RDKitMol) : Result string :=
  match GetPropsAsDict false false mol !! "_Name" with
  | None => Ok (MolToSmiles tk mol)
  | Some _ => GetProp mol "_Name"
  end.

Definition __init__ (tk : Toolkit) (mols : list RDKitMol) (fp_type : string)
    (n_bits radius min_radius random_seed : Z) (rings isomeric kekulize : bool)
    : Result t :=
  mol_names ← comprehension (mol_name tk) mols;
  Ok {| mols := mols; fp_type := fp_type; n_bits := n_bits; radius := radius;
        min_radius := min_radius; random_seed := random_seed; rings := rings;
        isomeric := isomeric; kekulize := kekulize; mol_names := mol_names |}.

(** [self.name]: the attributes set by [__init__] and the two methods of the
    class. *)
Definition getattr (self : t) (name : string) : Result PyVal :=
  if String.eqb name "mols" then Ok (VMols (mols self))
  else if String.eqb name "fp_type" then Ok (VStr (fp_type self))
  else if String.eqb name "n_bits" then Ok (VInt (n_bits self))
  else if String.eqb name "radius" then Ok (VInt (radius self))
  else if String.eqb name "min_radius" then Ok (VInt (min_radius self))
  else if String.eqb name "random_seed" then Ok (VInt (random_seed self))
  else if String.eqb name "rings" then Ok (VBool (rings self))
  else if String.eqb name "isomeric" then Ok (VBool (isomeric self))
  else if String.eqb name "kekulize" then Ok (VBool (kekulize self))
  else if String.eqb name "mol_names" then Ok (VStrs (mol_names self))
  else if str_in name ["compute_fingerprint"; "rdkit_fingerprint_low"] then
    Ok (VMethod name)
  else
    Raise (AttributeError
             ("'FingerprintGenerator' object has no attribute '" +:+ name +:+ "'")).

Definition rdkit_fingerprint_low (tk : Toolkit) (mol : RDKitMol) (fp_type : string)
    (n_bits radius min_radius random_seed : Z) (rings isomeric kekulize : bool)
    : Result ExplicitBitVect :=
  if String.eqb fp_type "SECFP" then
    let secfp_encoder := {| n_permutations := n_bits; seed := random_seed |} in
    EncodeSECFPMol tk secfp_encoder mol radius rings isomeric kekulize min_radius
  else if String.eqb fp_type "ECFP" then
    GetMorganFingerprintAsBitVect tk mol radius n_bits isomeric false
  else if String.eqb fp_type "Morgan" then
    GetMorganFingerprintAsBitVect tk mol radius n_bits isomeric true
  else if String.eqb fp_type "RDKFingerprint" then
    RDKFingerprint tk mol 1 10 n_bits 2 true 0 128 true true
  else if String.eqb fp_type "MaCCSKeys" then
    GenMACCSKeys tk mol
  else
    Raise (NotImplementedError (fp_type +:+ " not implemented yet.")).

Definition compute_fingerprint (tk : Toolkit) (self : t) : Result DataFrame :=
  if str_in (upper (fp_type self))
       ["SECFP"; "ECFP"; "MORGAN"; "RDKFINGERPRINT"; "MACCSKEYS"] then
    fps ← comprehension
      (fun mol => rdkit_fingerprint_low tk mol (fp_type self) (n_bits self)
                    (radius self) (min_radius self) (random_seed self)
                    (rings self) (isomeric self) (kekulize self))
      (mols self);
    arr ← np_array fps;
    pd_DataFrame_indexed arr (mol_names self)
  else
    desc_type ← getattr self "desc_type";
    Raise (ValueError (format_value desc_type +:+ " is not an supported fingerprint type.")).

End FingerprintGenerator.

(** ** A small toolkit and a few molecules, for evaluating the module *)

Module Demo.

Definition ethanol : RDKitMol :=
  {| mol_props := {[ "_Name" := "ethanol" ]}; mol_computed := []; mol_block := "CCO" |}.

Definition benzene : RDKitMol :=
  {| mol_props := ∅; mol_computed := []; mol_block := "c1ccccc1" |}.

Definition zeros (n : Z) : ExplicitBitVect := replicate (Z.to_nat n) false.

(** The binary64 bit pattern of an integer of magnitude below 2^53. *)
Definition binary64_of_int (z : Z) : Z :=
  let m := Z.abs z in
  let e := Z.log2 m in
  let sign := if (z <? 0)%Z then Z.shiftl 1 63 else 0%Z in
  if (m =? 0)%Z then 0%Z
  else Z.lor sign (Z.lor (Z.shiftl (1023 + e) 52) (Z.shiftl (m - Z.shiftl 1 e) (52 - e))).

(** A descriptor function that counts the characters of the structure. *)
Definition count_fn (offset : Z) : DescFn :=
  {| fn := fun mol => Ok (CInt (offset + Z.of_nat (String.length (mol_block mol))));
     fn_avg := fun mol => Ok (CInt offset) |}.

Definition descriptors : list (string * DescFn) :=
  ([("MolWt", count_fn 0); ("Ipc", count_fn 1)]
   ++ map (fun i => ("Chi" +:+ pretty i, count_fn (Z.of_nat i))) (seq 2 113)
   ++ [("fr_Al_OH", count_fn 200); ("fr_benzene", count_fn 300)])%list.

Definition tk : Toolkit :=
  {| MolToSmiles := mol_block;
     descList := descriptors;
     EncodeSECFPMol := fun _ _ _ _ _ _ _ => Ok (zeros 2048);
     GetMorganFingerprintAsBitVect := fun _ _ nBits _ _ => Ok (zeros nBits);
     RDKFingerprint := fun _ _ _ fpSize _ _ _ _ _ _ => Ok (zeros fpSize);
     GenMACCSKeys := fun _ => Ok (zeros 167);
     Calculator_pandas := fun _ mols =>
       Ok {| df_index := RangeIndex (length mols);
             df_columns := Index ["nAtom"];
             df_values := map (fun mol => [CInt (Z.of_nat (String.length (mol_block mol)))])
                              mols |};
     from_sdf := fun records => Ok (map (fun mol => [("nAtom", mol_block mol)]) records);
     float64 := fun c => match c with CInt z => CFloat (binary64_of_int z) | _ => c end |}.

(** The same toolkit with the PaDEL tool failing. *)
Definition tk_padel_failing : Toolkit :=
  {| MolToSmiles := MolToSmiles tk;
     descList := descriptors;
     EncodeSECFPMol := EncodeSECFPMol tk;
     GetMorganFingerprintAsBitVect := GetMorganFingerprintAsBitVect tk;
     RDKFingerprint := RDKFingerprint tk;
     GenMACCSKeys := GenMACCSKeys tk;
     Calculator_pandas := Calculator_pandas tk;
     from_sdf := fun _ => Raise (RuntimeError "PaDEL-Descriptor encountered an error");
     float64 := float64 tk |}.

(** [FingerprintGenerator([ethanol, benzene], fp_type=fp_type, n_bits=64)] as
    [__init__] leaves it. *)
Definition morgan_generator_of (fp_type : string) : FingerprintGenerator.t :=
  {| FingerprintGenerator.mols := [ethanol; benzene];
     FingerprintGenerator.fp_type := fp_type;
     FingerprintGenerator.n_bits := 64;
     FingerprintGenerator.radius := 3;
     FingerprintGenerator.min_radius := 1;
     FingerprintGenerator.random_seed := 12345;
     FingerprintGenerator.rings := true;
     FingerprintGenerator.isomeric := true;
     FingerprintGenerator.kekulize := false;
     FingerprintGenerator.mol_names := ["CCO"; "c1ccccc1"] |}.

Definition morgan_generator : FingerprintGenerator.t := morgan_generator_of "Morgan".

(** The toolkit [tk] with another descriptor registry. *)
Definition with_descList (registry : list (string * DescFn)) : Toolkit :=
  {| MolToSmiles := MolToSmiles tk;
     descList := registry;
     EncodeSECFPMol := EncodeSECFPMol tk;
     GetMorganFingerprintAsBitVect := GetMorganFingerprintAsBitVect tk;
     RDKFingerprint := RDKFingerprint tk;
     GenMACCSKeys := GenMACCSKeys tk;
     Calculator_pandas := Calculator_pandas tk;
     from_sdf := from_sdf tk;
     float64 := float64 tk |}.

(** A descriptor function that fails on benzene. *)
Definition aliphatic_fn : DescFn :=
  {| fn := fun mol => if String.eqb (mol_block mol) "c1ccccc1"
                      then Raise (ValueError "aromatic structure")
                      else Ok (CInt 1);
     fn_avg := fun mol => Ok (CInt 1) |}.

End Demo.

(** * Vocabulary of the statements *)

(** What the width theorem takes from RDKit: a Morgan bit vector has [nBits]
    bits, and an RDKit fingerprint made with [tgtDensity=0] (no folding)
    has [fpSize] bits. *)
Definition fingerprints_sized (tk : Toolkit) : Prop :=
  (forall mol radius nBits useChirality useFeatures fp,
      GetMorganFingerprintAsBitVect tk mol radius nBits useChirality useFeatures = Ok fp ->
      length fp = Z.to_nat nBits)
  /\ (forall mol minPath maxPath fpSize nBitsPerHash useHs minSize branched bondOrder fp,
         RDKFingerprint tk mol minPath maxPath fpSize nBitsPerHash useHs 0 minSize
           branched bondOrder = Ok fp ->
         length fp = Z.to_nat fpSize).

Definition set_n_bits (n : Z) (self : FingerprintGenerator.t) : FingerprintGenerator.t :=
  {| FingerprintGenerator.mols := FingerprintGenerator.mols self;
     FingerprintGenerator.fp_type := FingerprintGenerator.fp_type self;
     FingerprintGenerator.n_bits := n;
     FingerprintGenerator.radius := FingerprintGenerator.radius self;
     FingerprintGenerator.min_radius := FingerprintGenerator.min_radius self;
     FingerprintGenerator.random_seed := FingerprintGenerator.random_seed self;
     FingerprintGenerator.rings := FingerprintGenerator.rings self;
     FingerprintGenerator.isomeric := FingerprintGenerator.isomeric self;
     FingerprintGenerator.kekulize := FingerprintGenerator.kekulize self;
     FingerprintGenerator.mol_names := FingerprintGenerator.mol_names self |}.

(** A descriptor is kept by [rdkit_descriptors] unless [use_fragment is
    False] and its name starts with "fr_". *)
Definition keep_descriptor (use_fragment : PyVal) (d : string * DescFn) : bool :=
  negb (is_False use_fragment && startswith "fr_" d.1).

(** The value [_rdkit_descriptors_low] computes for one descriptor. *)
Definition descriptor_value (mol : RDKitMol) (ipc_avg : PyVal) (d : string * DescFn)
    : Result Cell :=
  if String.eqb d.1 "Ipc" && truthy ipc_avg then fn_avg d.2 mol else fn d.2 mol.

(** The row of a molecule in the table of selector [rdkit]. *)
Definition rdkit_row (tk : Toolkit) (use_fragment ipc_avg : PyVal) (mol : RDKitMol)
    : Result (list Cell) :=
  comprehension (descriptor_value mol ipc_avg)
                (List.filter (keep_descriptor use_fragment) (descList tk)).

(** The row of a molecule in the table of selector [rdkit_frag]. *)
Definition fragment_row (tk : Toolkit) (mol : RDKitMol) : Result (list Cell) :=
  features ← comprehension (fun d : string * DescFn => fn d.2 mol)
                           (dict_of (drop 115 (descList tk)));
  Ok (map (float64 tk) features).

(** A row of the [use_fragment=True] table with the cells of the
    fragment-named columns taken out. *)
Definition drop_fragment_cells (columns : list string) (row : list Cell) : list Cell :=
  map snd (List.filter (fun cv : string * Cell => negb (startswith "fr_" cv.1))
                       (combine columns row)).

(** What the row theorem takes from Mordred and PaDEL: a table, or a list
    of records, that follows the molecules one by one. *)
Definition mordred_follows_molecules (tk : Toolkit) (mordred_row : RDKitMol -> list Cell)
    : Prop :=
  forall mols df,
    Calculator_pandas tk false mols = Ok df ->
    df_index df = RangeIndex (length mols) /\ df_values df = map mordred_row mols.

Definition padel_follows_molecules (tk : Toolkit)
    (padel_record : RDKitMol -> list (string * string)) : Prop :=
  forall mols desc, from_sdf tk mols = Ok desc -> desc = map padel_record mols.

(** The row that belongs to a molecule in the table of a generator. *)
Definition row_of (tk : Toolkit) (mordred_row : RDKitMol -> list Cell)
    (padel_record : RDKitMol -> list (string * string))
    (self : DescriptorGenerator.t) (columns : Axis) (mol : RDKitMol) (row : list Cell)
    : Prop :=
  let selector := lower (DescriptorGenerator.desc_type self) in
  if String.eqb selector "mordred" then row = mordred_row mol
  else if String.eqb selector "padel" then
    exists names, columns = Index names /\ row = record_row names (padel_record mol)
  else if String.eqb selector "rdkit" then
    rdkit_row tk (VBool (DescriptorGenerator.use_fragment self))
                 (VBool (DescriptorGenerator.ipc_avg self)) mol = Ok row
  else fragment_row tk mol = Ok row.

(** The calls into the toolkit made for a generator return. *)
Definition backend_returns (tk : Toolkit) (self : DescriptorGenerator.t) : Prop :=
  let selector := lower (DescriptorGenerator.desc_type self) in
  let mols := DescriptorGenerator.mols self in
  if String.eqb selector "mordred" then is_Ok (Calculator_pandas tk false mols)
  else if String.eqb selector "padel" then is_Ok (from_sdf tk mols)
  else if String.eqb selector "rdkit" then
    Forall (fun mol => is_Ok (rdkit_row tk (VBool (DescriptorGenerator.use_fragment self))
                                        (VBool (DescriptorGenerator.ipc_avg self)) mol)) mols
  else
    Forall (fun mol => is_Ok (fragment_row tk mol)) mols.

(** * Properties *)

(** ** Auxiliary facts *)

Lemma str_in_In (x : string) (l : list string) : str_in x l = true <-> In x l.
Proof.
  unfold str_in. rewrite existsb_exists. split.
  - intros (y & Hy & Heq). apply String.eqb_eq in Heq. now subst.
  - intros H. exists x. split; [assumption | apply String.eqb_refl].
Qed.

Lemma str_in_not_In (x : string) (l : list string) : str_in x l = false <-> ~ In x l.
Proof.
  rewrite <- str_in_In. destruct (str_in x l); split; congruence.
Qed.

Lemma comprehension_nonempty_raise {A B} (f : A -> Result B) (l : list A) (e : exn) :
  l <> [] -> (forall x, f x = Raise e) -> comprehension f l = Raise e.
Proof.
  intros Hne Hf. destruct l as [|x l']; [congruence|].
  simpl. now rewrite Hf.
Qed.

(** ** The model at work *)

Example upper_Morgan : upper "Morgan" = "MORGAN".
Proof. reflexivity. Qed.

Example lower_RDKit_Frag : lower "RDKit_Frag" = "rdkit_frag".
Proof. reflexivity. Qed.

(** [f(mols)], [f(mols, False, ipc_avg=False, extra=1)] and a call with four
    positional arguments, for [f = rdkit_descriptors]. *)
Example bind_defaults :
  bind DescriptorGenerator.sig_rdkit_descriptors [VMols []] []
  = Ok ([VMols []; VBool true; VBool true], []).
Proof. reflexivity. Qed.

Example bind_extra_keyword :
  bind DescriptorGenerator.sig_rdkit_descriptors [VMols []; VBool false]
    [("ipc_avg", VBool false); ("extra", VInt 1)]
  = Ok ([VMols []; VBool false; VBool false], [("extra", VInt 1)]).
Proof. reflexivity. Qed.

Example bind_too_many :
  bind DescriptorGenerator.sig_rdkit_descriptors
    [VMols []; VBool false; VBool false; VInt 1] []
  = Raise (TypeError "rdkit_descriptors() takes too many positional arguments").
Proof. reflexivity. Qed.

Example demo_rdkit_frag_table :
  DescriptorGenerator.compute_descriptor Demo.tk
    (DescriptorGenerator.__init__ [Demo.ethanol; Demo.benzene] "rdkit_frag" true true) [] ∅
  = (Ok {| df_index := RangeIndex 2;
           df_columns := Index ["fr_Al_OH"; "fr_benzene"];
           df_values := [[CFloat 4641346444098273280; CFloat 4644038048563068928];
                         [CFloat 4641522365958717440; CFloat 4644126009493291008]] |},
     ∅).
Proof. vm_compute. reflexivity. Qed.

Example demo_padel_table :
  DescriptorGenerator.compute_descriptor Demo.tk
    (DescriptorGenerator.__init__ [Demo.ethanol; Demo.benzene] "PaDEL" true true) [] ∅
  = (Ok {| df_index := RangeIndex 2;
           df_columns := Index ["nAtom"];
           df_values := [[CStr "CCO"]; [CStr "c1ccccc1"]] |},
     ∅).
Proof. vm_compute. reflexivity. Qed.

Example demo_maccs_table_shape :
  (fun r => match r with
            | Ok df => Some (df_index df, df_columns df, map (@length Cell) (df_values df))
            | Raise _ => None
            end)
    (FingerprintGenerator.compute_fingerprint Demo.tk
       (set_n_bits 2048 (Demo.morgan_generator_of "MaCCSKeys")))
  = Some (Index ["CCO"; "c1ccccc1"], RangeIndex 167, [167; 167]).
Proof. vm_compute. reflexivity. Qed.

(** ** Selector dispatch of [DescriptorGenerator] *)

Section DescriptorDispatch.

Import DescriptorGenerator.
Variable tk : Toolkit.

(** C7: a [desc_type] whose lowercased form is none of the four selectors
    makes [compute_descriptor] raise [ValueError] with the message
    "Unknown descriptor type <desc_type>."; no table is returned and the
    working directory is left as it was. *)
Theorem compute_descriptor_unknown_selector (self : t) (kwargs : Kwargs)
    (fs : gmap string (list RDKitMol)) :
  ~ In (lower (desc_type self)) ["mordred"; "padel"; "rdkit"; "rdkit_frag"] ->
  compute_descriptor tk self kwargs fs
  = (Raise (ValueError ("Unknown descriptor type " +:+ desc_type self +:+ ".")), fs).
Proof.
  intros Hsel. unfold compute_descriptor.
  repeat match goal with
  | |- context [String.eqb ?a ?b] =>
      destruct (String.eqb_spec a b) as [Heq|_];
      [exfalso; apply Hsel; rewrite Heq; simpl; tauto|]
  end.
  reflexivity.
Qed.

(** C10: with selector [rdkit] and at least one extra keyword argument, the
    keys of [kwargs] are passed as positional arguments after the molecule
    list, and the call of [rdkit_descriptors] fails in argument binding
    with a [TypeError]: no descriptor is computed. *)
Theorem compute_descriptor_rdkit_kwargs_type_error (self : t) (kwargs : Kwargs)
    (fs : gmap string (list RDKitMol)) :
  lower (desc_type self) = "rdkit" ->
  kwargs <> [] ->
  exists msg,
    bind sig_rdkit_descriptors
      (VMols (mols self) :: map VStr (keys kwargs))
      [("use_fragment", VBool (use_fragment self)); ("ipc_avg", VBool (ipc_avg self))]
    = Raise (TypeError msg)
    /\ compute_descriptor tk self kwargs fs = (Raise (TypeError msg), fs).
Proof.
  intros Hsel Hne. unfold compute_descriptor. rewrite Hsel. simpl.
  destruct kwargs as [|[k v] rest]; [congruence|].
  unfold lift, call_rdkit_descriptors, bind. simpl.
  destruct rest as [|[k2 v2] rest2]; simpl; eexists; split; reflexivity.
Qed.

End DescriptorDispatch.

Lemma compute_descriptor_unknown_selector_witness :
  DescriptorGenerator.compute_descriptor Demo.tk
    (DescriptorGenerator.__init__ [Demo.ethanol] "Dragon" true true) [] ∅
  = (Raise (ValueError "Unknown descriptor type Dragon."), ∅).
Proof.
  apply (compute_descriptor_unknown_selector Demo.tk
           (DescriptorGenerator.__init__ [Demo.ethanol] "Dragon" true true) [] ∅).
  vm_compute. intuition discriminate.
Defined.

Lemma compute_descriptor_rdkit_kwargs_type_error_witness :
  exists msg,
    bind DescriptorGenerator.sig_rdkit_descriptors
      [VMols [Demo.ethanol]; VStr "ipc_avg"]
      [("use_fragment", VBool true); ("ipc_avg", VBool true)]
    = Raise (TypeError msg)
    /\ DescriptorGenerator.compute_descriptor Demo.tk
         (DescriptorGenerator.__init__ [Demo.ethanol] "RDKit" true true)
         [("ipc_avg", VBool false)] ∅
       = (Raise (TypeError msg), ∅).
Proof.
  apply (compute_descriptor_rdkit_kwargs_type_error Demo.tk
           (DescriptorGenerator.__init__ [Demo.ethanol] "RDKit" true true)
           [("ipc_avg", VBool false)] ∅).
  - reflexivity.
  - discriminate.
Defined.

(** ** [FingerprintGenerator] *)

Section Fingerprints.

Import FingerprintGenerator.
Variable tk : Toolkit.

Lemma getattr_desc_type (self : t) :
  getattr self "desc_type"
  = Raise (AttributeError "'FingerprintGenerator' object has no attribute 'desc_type'").
Proof. reflexivity. Qed.

(** C1: for an [fp_type] whose uppercased form is none of the five
    families, [compute_fingerprint] returns no table, but the exception it
    raises is not the [ValueError] of its [raise] statement: building the
    message reads [self.desc_type], which a [FingerprintGenerator] does not
    have, and that [AttributeError] is what the caller gets. *)
Theorem compute_fingerprint_unknown_selector (self : t) :
  ~ In (upper (fp_type self)) ["SECFP"; "ECFP"; "MORGAN"; "RDKFINGERPRINT"; "MACCSKEYS"] ->
  compute_fingerprint tk self
  = Raise (AttributeError "'FingerprintGenerator' object has no attribute 'desc_type'")
  /\ forall msg, compute_fingerprint tk self <> Raise (ValueError msg).
Proof.
  intros Hsel. apply str_in_not_In in Hsel.
  unfold compute_fingerprint. rewrite Hsel, getattr_desc_type.
  split; [reflexivity | discriminate].
Qed.

(** The low-level dispatch knows five exact spellings. *)
Lemma rdkit_fingerprint_low_not_implemented (mol : RDKitMol) (fp : string)
    (n r mr rs : Z) (b1 b2 b3 : bool) :
  ~ In fp ["SECFP"; "ECFP"; "Morgan"; "RDKFingerprint"; "MaCCSKeys"] ->
  rdkit_fingerprint_low tk mol fp n r mr rs b1 b2 b3
  = Raise (NotImplementedError (fp +:+ " not implemented yet.")).
Proof.
  intros Hfp. unfold rdkit_fingerprint_low.
  repeat match goal with
  | |- context [String.eqb ?a ?b] =>
      destruct (String.eqb_spec a b) as [Heq|_];
      [exfalso; apply Hfp; rewrite Heq; simpl; tauto|]
  end.
  reflexivity.
Qed.

(** C9, amended: an [fp_type] that passes the case-insensitive check of
    [compute_fingerprint] without being one of the five exact spellings
    makes it raise [NotImplementedError] naming the type, as soon as there
    is a molecule to encode. *)
Theorem compute_fingerprint_inexact_spelling (self : t) :
  In (upper (fp_type self)) ["SECFP"; "ECFP"; "MORGAN"; "RDKFINGERPRINT"; "MACCSKEYS"] ->
  ~ In (fp_type self) ["SECFP"; "ECFP"; "Morgan"; "RDKFingerprint"; "MaCCSKeys"] ->
  mols self <> [] ->
  compute_fingerprint tk self
  = Raise (NotImplementedError (fp_type self +:+ " not implemented yet.")).
Proof.
  intros Hup Hexact Hmols. apply str_in_In in Hup.
  unfold compute_fingerprint. rewrite Hup.
  rewrite (comprehension_nonempty_raise _ _
             (NotImplementedError (fp_type self +:+ " not implemented yet."))).
  - reflexivity.
  - assumption.
  - intros mol. now apply rdkit_fingerprint_low_not_implemented.
Qed.

End Fingerprints.

Lemma compute_fingerprint_unknown_selector_witness :
  exists self,
    FingerprintGenerator.__init__ Demo.tk [Demo.benzene] "E3FP" 2048 3 1 12345 true true false
    = Ok self
    /\ FingerprintGenerator.compute_fingerprint Demo.tk self
       = Raise (AttributeError "'FingerprintGenerator' object has no attribute 'desc_type'").
Proof.
  eexists. split; [vm_compute; reflexivity|].
  apply (compute_fingerprint_unknown_selector Demo.tk).
  vm_compute. intuition discriminate.
Defined.

(** C9 as stated fails on an empty molecule list: the low-level dispatch is
    never entered, no [NotImplementedError] is raised and an empty table is
    returned. *)
Lemma compute_fingerprint_inexact_spelling_empty_list :
  exists self df,
    FingerprintGenerator.__init__ Demo.tk [] "morgan" 2048 3 1 12345 true true false = Ok self
    /\ In (upper (FingerprintGenerator.fp_type self))
          ["SECFP"; "ECFP"; "MORGAN"; "RDKFINGERPRINT"; "MACCSKEYS"]
    /\ ~ In (FingerprintGenerator.fp_type self)
            ["SECFP"; "ECFP"; "Morgan"; "RDKFingerprint"; "MaCCSKeys"]
    /\ FingerprintGenerator.compute_fingerprint Demo.tk self = Ok df
    /\ df_values df = []
    /\ FingerprintGenerator.compute_fingerprint Demo.tk self
       <> Raise (NotImplementedError "morgan not implemented yet.").
Proof.
  do 2 eexists. split; [vm_compute; reflexivity|].
  split; [vm_compute; tauto|].
  split; [vm_compute; intuition discriminate|].
  split; [vm_compute; reflexivity|].
  split; [reflexivity | vm_compute; discriminate].
Qed.

Lemma compute_fingerprint_inexact_spelling_witness :
  exists self,
    FingerprintGenerator.__init__ Demo.tk [Demo.benzene] "morgan" 2048 3 1 12345 true true false
    = Ok self
    /\ FingerprintGenerator.compute_fingerprint Demo.tk self
       = Raise (NotImplementedError "morgan not implemented yet.").
Proof.
  eexists. split; [vm_compute; reflexivity|].
  apply (compute_fingerprint_inexact_spelling Demo.tk).
  - vm_compute. tauto.
  - vm_compute. intuition discriminate.
  - discriminate.
Defined.

Lemma comprehension_total {A B} (f : A -> Result B) (g : A -> B) (l : list A) :
  (forall x, f x = Ok (g x)) -> comprehension f l = Ok (map g l).
Proof.
  intros Hf. induction l as [|x l IH]; [reflexivity|].
  simpl. rewrite Hf, IH. reflexivity.
Qed.

Lemma comprehension_Forall2 {A B} (f : A -> Result B) (l : list A) (ys : list B) :
  comprehension f l = Ok ys -> Forall2 (fun x y => f x = Ok y) l ys.
Proof.
  revert ys. induction l as [|x l IH]; simpl; intros ys H.
  - injection H as <-. constructor.
  - destruct (f x) as [y|e] eqn:Hx; [|discriminate]. simpl in H.
    destruct (comprehension f l) as [ys'|e]; [|discriminate].
    injection H as <-. constructor; [assumption | now apply IH].
Qed.

Lemma forallb_length_Forall {A} (n : nat) (l : list (list A)) :
  forallb (fun r => Nat.eqb (length r) n) l = true -> Forall (fun r => length r = n) l.
Proof.
  rewrite forallb_forall, Forall_forall. intros H r Hr.
  apply Nat.eqb_eq, H. now apply list_elem_of_In.
Qed.

Section FingerprintTables.

Import FingerprintGenerator.
Variable tk : Toolkit.

(** [GetPropsAsDict()] with its defaults leaves private properties out, so
    it never holds [_Name]. *)
Lemma GetPropsAsDict_hides_Name (mol : RDKitMol) :
  GetPropsAsDict false false mol !! "_Name" = None.
Proof.
  unfold GetPropsAsDict. apply map_lookup_filter_None_2.
  right. intros x _. simpl. tauto.
Qed.

Lemma mol_name_is_smiles (mol : RDKitMol) : mol_name tk mol = Ok (MolToSmiles tk mol).
Proof. unfold mol_name. now rewrite GetPropsAsDict_hides_Name. Qed.

Lemma init_inv (ms : list RDKitMol) (fp : string) (n r mr rs : Z) (b1 b2 b3 : bool) :
  __init__ tk ms fp n r mr rs b1 b2 b3
  = Ok {| mols := ms; fp_type := fp; n_bits := n; radius := r; min_radius := mr;
          random_seed := rs; rings := b1; isomeric := b2; kekulize := b3;
          mol_names := map (MolToSmiles tk) ms |}.
Proof.
  unfold __init__.
  rewrite (comprehension_total _ (MolToSmiles tk)) by apply mol_name_is_smiles.
  reflexivity.
Qed.

(** What a returned table is made of. *)
Lemma compute_fingerprint_inv (self : t) (df : DataFrame) :
  compute_fingerprint tk self = Ok df ->
  exists fps,
    comprehension
      (fun mol => rdkit_fingerprint_low tk mol (fp_type self) (n_bits self)
                    (radius self) (min_radius self) (random_seed self)
                    (rings self) (isomeric self) (kekulize self))
      (mols self) = Ok fps
    /\ df_index df = Index (mol_names self)
    /\ match fps with
       | [] => df_values df = [] /\ df_columns df = RangeIndex 1
       | fp :: _ =>
           df_values df = map (map bit_cell) fps
           /\ df_columns df = RangeIndex (length fp)
           /\ Forall (fun fp' => length fp' = length fp) fps
       end.
Proof.
  unfold compute_fingerprint.
  destruct (str_in _ _); [|rewrite getattr_desc_type; discriminate].
  destruct (comprehension _ (mols self)) as [fps|e]; [|discriminate].
  intros H. exists fps. split; [reflexivity|]. simpl in H.
  destruct fps as [|fp fps']; simpl in H.
  - unfold pd_DataFrame_indexed in H. simpl in H.
    destruct (Nat.eqb (length (mol_names self)) 0); [|discriminate].
    injection H as <-. auto.
  - destruct (Nat.eqb (length fp) (length fp) && _)%bool eqn:Hrect; [|discriminate].
    simpl in H. unfold pd_DataFrame_indexed in H. simpl in H.
    destruct (Nat.eqb (length (mol_names self)) _); [|discriminate].
    injection H as <-. repeat split.
    apply (forallb_length_Forall (length fp) (fp :: fps')). exact Hrect.
Qed.

(** C6: the index of the fingerprint table is the list of canonical SMILES
    strings of the molecules, whether or not a molecule has its [_Name]
    property set. *)
Theorem fingerprint_index_is_smiles (ms : list RDKitMol) (fp : string)
    (n r mr rs : Z) (b1 b2 b3 : bool) (self : t) (df : DataFrame) :
  __init__ tk ms fp n r mr rs b1 b2 b3 = Ok self ->
  compute_fingerprint tk self = Ok df ->
  df_index df = Index (map (MolToSmiles tk) ms).
Proof.
  rewrite init_inv. intros [= <-] Hdf.
  destruct (compute_fingerprint_inv _ _ Hdf) as (fps & _ & Hindex & _).
  exact Hindex.
Qed.

End FingerprintTables.

(** C6 at a molecule named "ethanol": its row is labelled with its SMILES
    string and not with its name. *)
Lemma fingerprint_index_is_smiles_witness :
  HasProp Demo.ethanol "_Name" = true
  /\ GetProp Demo.ethanol "_Name" = Ok "ethanol"
  /\ exists self df,
       FingerprintGenerator.__init__ Demo.tk [Demo.ethanol] "ECFP" 2048 3 1 12345
         true true false = Ok self
       /\ FingerprintGenerator.compute_fingerprint Demo.tk self = Ok df
       /\ df_index df = Index ["CCO"].
Proof.
  split; [vm_compute; reflexivity|]. split; [vm_compute; reflexivity|].
  do 2 eexists. split; [|split].
  - vm_compute. reflexivity.
  - vm_compute. reflexivity.
  - eapply (fingerprint_index_is_smiles Demo.tk [Demo.ethanol] "ECFP" 2048 3 1 12345
              true true false).
    + vm_compute. reflexivity.
    + vm_compute. reflexivity.
Defined.

(** ** Width of the fingerprint table *)

Section FingerprintWidth.

Import FingerprintGenerator.
Variable tk : Toolkit.
Hypothesis Hsized : fingerprints_sized tk.

Lemma rdkit_fingerprint_low_sized (mol : RDKitMol) (fp : string)
    (n r mr rs : Z) (b1 b2 b3 : bool) (v : ExplicitBitVect) :
  In fp ["ECFP"; "Morgan"; "RDKFingerprint"] ->
  rdkit_fingerprint_low tk mol fp n r mr rs b1 b2 b3 = Ok v ->
  length v = Z.to_nat n.
Proof.
  destruct Hsized as [Hmorgan Hrdk].
  intros Hfp. simpl in Hfp.
  destruct Hfp as [<-|[<-|[<-|[]]]]; unfold rdkit_fingerprint_low; simpl; intros H.
  - eapply Hmorgan, H.
  - eapply Hmorgan, H.
  - eapply Hrdk, H.
Qed.

(** C2, amended: with a molecule to encode, a returned table of type ECFP,
    Morgan or RDKFingerprint has [n_bits] columns and every row has
    [n_bits] cells; a table of type MaCCSKeys holds the MACCS key vector of
    each molecule and is the same whatever [n_bits] is. *)
Theorem fingerprint_table_width (self : t) (df : DataFrame) :
  mols self <> [] ->
  compute_fingerprint tk self = Ok df ->
  (In (fp_type self) ["ECFP"; "Morgan"; "RDKFingerprint"] ->
     df_columns df = RangeIndex (Z.to_nat (n_bits self))
     /\ Forall (fun row => length row = Z.to_nat (n_bits self)) (df_values df))
  /\ (fp_type self = "MaCCSKeys" ->
        Forall2 (fun mol row => exists fp, GenMACCSKeys tk mol = Ok fp /\ row = map bit_cell fp)
                (mols self) (df_values df)
        /\ forall n, compute_fingerprint tk (set_n_bits n self) = Ok df).
Proof.
  intros Hmols Hdf.
  destruct (compute_fingerprint_inv tk _ _ Hdf) as (fps & Hfps & _ & Hshape).
  pose proof (comprehension_Forall2 _ _ _ Hfps) as Hall.
  split.
  - intros Hfp.
    destruct fps as [|v fps'].
    { inversion Hall as [Hnil|]. congruence. }
    destruct Hshape as (Hval & Hcol & Hlen).
    assert (Hv : length v = Z.to_nat (n_bits self)).
    { destruct (mols self) as [|mol ms]; [congruence|].
      inversion Hall; subst. eapply rdkit_fingerprint_low_sized; eassumption. }
    rewrite Hcol, Hval, Hv. split; [reflexivity|].
    rewrite Forall_map. eapply Forall_impl; [exact Hlen|].
    intros v' Hv'. simpl in Hv'. rewrite length_map. congruence.
  - intros Hfp. split.
    + destruct fps as [|v fps'].
      { inversion Hall as [Hnil|]. congruence. }
      destruct Hshape as (-> & _ & _).
      apply Forall2_fmap_r. eapply Forall2_impl; [exact Hall|].
      intros mol v' Hv'. simpl in Hv'. exists v'. split; [|reflexivity].
      rewrite Hfp in Hv'. exact Hv'.
    + intros n. rewrite <- Hdf. unfold compute_fingerprint, set_n_bits. simpl.
      rewrite Hfp. reflexivity.
Qed.

End FingerprintWidth.

Lemma demo_fingerprints_sized : fingerprints_sized Demo.tk.
Proof.
  split; simpl; intros; match goal with H : Ok _ = Ok _ |- _ => injection H as <- end;
    apply length_replicate.
Qed.

Lemma fingerprint_table_width_witness :
  exists df,
    FingerprintGenerator.compute_fingerprint Demo.tk Demo.morgan_generator = Ok df
    /\ df_columns df = RangeIndex 64
    /\ Forall (fun row => length row = 64) (df_values df).
Proof.
  destruct (FingerprintGenerator.compute_fingerprint Demo.tk Demo.morgan_generator)
    as [df|e] eqn:Hdf; [|vm_compute in Hdf; discriminate].
  exists df. split; [reflexivity|].
  apply (fingerprint_table_width Demo.tk demo_fingerprints_sized Demo.morgan_generator df).
  - discriminate.
  - exact Hdf.
  - vm_compute. tauto.
Defined.

(** C2 as stated fails for MaCCSKeys: with [n_bits = 2048], a toolkit whose
    MACCS key vectors have 167 bits gives a table of 167 columns. *)
Lemma fingerprint_table_width_maccs :
  exists self df,
    FingerprintGenerator.__init__ Demo.tk [Demo.ethanol] "MaCCSKeys" 2048 3 1 12345
      true true false = Ok self
    /\ FingerprintGenerator.compute_fingerprint Demo.tk self = Ok df
    /\ FingerprintGenerator.n_bits self = 2048%Z
    /\ df_columns df = RangeIndex 167
    /\ Forall (fun row => length row = 167) (df_values df)
    /\ ~ Forall (fun row => length row = 2048) (df_values df).
Proof.
  do 2 eexists. split; [vm_compute; reflexivity|]. split; [vm_compute; reflexivity|].
  split; [reflexivity|]. split; [reflexivity|].
  split.
  - repeat constructor.
  - intros H. inversion H as [|row rows Hrow _]. vm_compute in Hrow. discriminate.
Qed.

(** ** The temporary file of the PaDEL path *)

Section TemporaryFile.

Import DescriptorGenerator.
Variable tk : Toolkit.

Lemma alter_lookup_insert {A} (f : A -> A) (m : gmap string A) (i : string) (x : A) :
  m !! i = Some x -> alter f i m = <[i := f x]> m.
Proof.
  intros Hi. rewrite <- (insert_id m i x Hi) at 1. apply alter_insert_eq.
Qed.

(** Writing the molecules appends them to the open file. *)
Lemma for_each_write (path : string) (ms records : list RDKitMol)
    (fs : gmap string (list RDKitMol)) :
  fs !! path = Some records ->
  for_each (SDWriter_write path) ms fs = (Ok tt, <[path := (records ++ ms)%list]> fs).
Proof.
  revert records fs. induction ms as [|mol ms IH]; intros records fs Hfs.
  - simpl. rewrite app_nil_r, insert_id by assumption. reflexivity.
  - simpl. unfold mbind, M_bind, SDWriter_write at 1.
    rewrite (alter_lookup_insert _ _ _ _ Hfs).
    rewrite (IH (records ++ [mol])%list) by apply lookup_insert_eq.
    rewrite insert_insert_eq, <- app_assoc. reflexivity.
Qed.

Lemma padelpy_descriptors_written (ms : list RDKitMol) (fs : gmap string (list RDKitMol)) :
  for_each (SDWriter_write "padelpy_out_tmp.sdf") ms (<["padelpy_out_tmp.sdf" := []]> fs)
  = (Ok tt, <["padelpy_out_tmp.sdf" := ms]> fs).
Proof.
  rewrite (for_each_write _ ms []) by apply lookup_insert_eq.
  rewrite insert_insert_eq. reflexivity.
Qed.

Lemma padelpy_descriptors_returns (ms : list RDKitMol) (fs : gmap string (list RDKitMol))
    (desc : list (list (string * string))) :
  from_sdf tk ms = Ok desc ->
  padelpy_descriptors tk ms fs
  = (Ok (pd_DataFrame_records desc), delete "padelpy_out_tmp.sdf" fs).
Proof.
  intros Hdesc.
  unfold padelpy_descriptors, mbind, M_bind, SDWriter at 1.
  rewrite padelpy_descriptors_written.
  unfold SDWriter_close, mret, M_ret, padelpy_from_sdf, os_remove.
  rewrite lookup_insert_eq, Hdesc, lookup_insert_eq, delete_insert_eq. reflexivity.
Qed.

Lemma padelpy_descriptors_raises (ms : list RDKitMol) (fs : gmap string (list RDKitMol))
    (e : exn) :
  from_sdf tk ms = Raise e ->
  padelpy_descriptors tk ms fs = (Raise e, <["padelpy_out_tmp.sdf" := ms]> fs).
Proof.
  intros He.
  unfold padelpy_descriptors, mbind, M_bind, SDWriter at 1.
  rewrite padelpy_descriptors_written.
  unfold SDWriter_close, mret, M_ret, padelpy_from_sdf.
  rewrite lookup_insert_eq, He. reflexivity.
Qed.

(** C3: [padelpy_descriptors] writes the molecules to "padelpy_out_tmp.sdf".
    When the tool returns, the file is removed before the table is
    returned; when the tool raises, the exception leaves the function at
    once and the file stays in the working directory. *)
Theorem padelpy_descriptors_temporary_file (ms : list RDKitMol)
    (fs : gmap string (list RDKitMol)) :
  (forall desc, from_sdf tk ms = Ok desc ->
     padelpy_descriptors tk ms fs
     = (Ok (pd_DataFrame_records desc), delete "padelpy_out_tmp.sdf" fs)
     /\ (padelpy_descriptors tk ms fs).2 !! "padelpy_out_tmp.sdf" = None)
  /\ (forall e, from_sdf tk ms = Raise e ->
        padelpy_descriptors tk ms fs = (Raise e, <["padelpy_out_tmp.sdf" := ms]> fs)
        /\ (padelpy_descriptors tk ms fs).2 !! "padelpy_out_tmp.sdf" = Some ms).
Proof.
  split.
  - intros desc Hdesc. rewrite (padelpy_descriptors_returns _ _ _ Hdesc).
    split; [reflexivity | apply lookup_delete_eq].
  - intros e He. rewrite (padelpy_descriptors_raises _ _ _ He).
    split; [reflexivity | apply lookup_insert_eq].
Qed.

End TemporaryFile.

(** C3 with the tool failing on one molecule, in an empty directory: the
    file is there after the call. *)
Lemma padelpy_descriptors_temporary_file_witness :
  (DescriptorGenerator.padelpy_descriptors Demo.tk_padel_failing [Demo.ethanol] ∅).1
  = Raise (RuntimeError "PaDEL-Descriptor encountered an error")
  /\ (DescriptorGenerator.padelpy_descriptors Demo.tk_padel_failing [Demo.ethanol] ∅).2
       !! "padelpy_out_tmp.sdf" = Some [Demo.ethanol].
Proof.
  destruct (proj2 (padelpy_descriptors_temporary_file Demo.tk_padel_failing [Demo.ethanol] ∅)
              (RuntimeError "PaDEL-Descriptor encountered an error") eq_refl) as [Hrun Hfile].
  split; [rewrite Hrun; reflexivity | exact Hfile].
Defined.

(** ** Argument binding of [_rdkit_descriptors_low] *)

Lemma find_slot_set_slot (k k' : string) (v : PyVal) (slots : Slots) :
  find_slot k slots <> None -> find_slot k (set_slot k' v slots) <> None.
Proof.
  induction slots as [|[p old] slots IH]; simpl; [congruence|].
  destruct (String.eqb_spec p k') as [->|Hne]; simpl.
  - destruct (String.eqb k' k); [discriminate | exact (fun H => H)].
  - destruct (String.eqb p k); [discriminate | exact IH].
Qed.

Lemma dict_contains_app (k : string) (d1 d2 : Kwargs) :
  dict_contains k (d1 ++ d2)%list = dict_contains k d1 || dict_contains k d2.
Proof. unfold dict_contains, str_in, keys. now rewrite map_app, existsb_app. Qed.




(** A keyword that names a parameter never lands in [**kwargs]. *)
Lemma bind_keywords_parameter (f k : string) (kw : Kwargs) :
  forall (slots : Slots) (extra : Kwargs) (slots' : Slots) (extra' : Kwargs),
  find_slot k slots <> None ->
  dict_contains k extra = false ->
  bind_keywords f kw slots extra = Ok (slots', extra') ->
  dict_contains k extra' = false.
Proof.
  induction kw as [|[k0 v0] kw IH]; simpl; intros slots extra slots' extra' Hk Hextra Hbind.
  - injection Hbind as _ <-. exact Hextra.
  - destruct (find_slot k0 slots) as [[filled|]|] eqn:Hk0.
    + discriminate.
    + eapply IH; [|exact Hextra|exact Hbind]. now apply find_slot_set_slot.
    + eapply IH; [exact Hk| |exact Hbind].
      rewrite dict_contains_app, Hextra. simpl.
      unfold dict_contains, str_in. simpl.
      destruct (String.eqb_spec k k0) as [->|_]; [congruence | reflexivity].
Qed.

(** X12: in every call of [_rdkit_descriptors_low] that binds, a keyword
    argument named [mol] has been taken by the parameter [mol]; the
    [**kwargs] dictionary does not hold the key, and the call goes on to the
    loop over the descriptors instead of raising [DeprecationWarning]. *)
Theorem legacy_mol_keyword_is_a_parameter (args vals : list PyVal) (kw kwargs : Kwargs) :
  bind sig__rdkit_descriptors_low args kw = Ok (vals, kwargs) ->
  dict_contains "mol" kwargs = false
  /\ forall mol desc_list ipc_avg,
       vals = [VMol mol; VDescList desc_list; ipc_avg] ->
       call__rdkit_descriptors_low args kw = features_loop mol ipc_avg desc_list [].
Proof.
  intros Hbind.
  assert (Hkw : dict_contains "mol" kwargs = false).
  { unfold bind in Hbind. simpl in Hbind.
    destruct (bind_keywords _ kw _ []) as [[slots extra]|e] eqn:Hk; [|discriminate].
    simpl in Hbind.
    destruct (Nat.ltb 3 (length args)); [discriminate|].
    destruct (apply_defaults _ _ slots) as [vs|e]; [|discriminate].
    injection Hbind as _ <-.
    eapply bind_keywords_parameter; [| |exact Hk]; [|reflexivity].
    destruct args; simpl; discriminate. }
  split; [exact Hkw|].
  intros mol desc_list ipc_avg ->.
  unfold call__rdkit_descriptors_low. rewrite Hbind. simpl.
  unfold _rdkit_descriptors_low. rewrite Hkw. reflexivity.
Qed.

(** X12 at calls that pass [mol] by keyword: features are computed when it
    is the only value for [mol], and binding fails with [TypeError] when a
    positional argument has taken the parameter already. *)
Lemma legacy_mol_keyword_is_a_parameter_witness :
  call__rdkit_descriptors_low []
    [("desc_list", VDescList [("MolWt", Demo.count_fn 0)]); ("mol", VMol Demo.ethanol)]
  = Ok [CInt 3]
  /\ call__rdkit_descriptors_low [VMol Demo.benzene]
       [("desc_list", VDescList [("MolWt", Demo.count_fn 0)]); ("mol", VMol Demo.ethanol)]
     = Raise (TypeError "_rdkit_descriptors_low() got multiple values for argument 'mol'").
Proof.
  split; [|reflexivity].
  rewrite (proj2 (legacy_mol_keyword_is_a_parameter []
                    [VMol Demo.ethanol; VDescList [("MolWt", Demo.count_fn 0)]; VBool true]
                    [("desc_list", VDescList [("MolWt", Demo.count_fn 0)]);
                     ("mol", VMol Demo.ethanol)]
                    [] eq_refl)
                 Demo.ethanol [("MolWt", Demo.count_fn 0)] (VBool true) eq_refl).
  reflexivity.
Defined.

(** ** The tables of selector [rdkit] *)

Lemma bind_Ok_id {A} (r : Result A) : (a ← r; Ok a) = r.
Proof. now destruct r. Qed.

Lemma comprehension_ext {A B} (f g : A -> Result B) (l : list A) :
  (forall x, f x = g x) -> comprehension f l = comprehension g l.
Proof.
  intros Hfg. induction l as [|x l IH]; [reflexivity|].
  simpl. now rewrite Hfg, IH.
Qed.

Lemma Forall2_comprehension {A B} (f : A -> Result B) (l : list A) (ys : list B) :
  Forall2 (fun x y => f x = Ok y) l ys -> comprehension f l = Ok ys.
Proof.
  induction 1 as [|x y l ys Hx _ IH]; [reflexivity|].
  simpl. now rewrite Hx, IH.
Qed.

Lemma comprehension_length {A B} (f : A -> Result B) (l : list A) (ys : list B) :
  comprehension f l = Ok ys -> length ys = length l.
Proof.
  intros H. apply comprehension_Forall2 in H. symmetry. exact (Forall2_length _ _ _ H).
Qed.

(** A comprehension over the kept part of a list gives the kept part of
    the values. *)
Lemma comprehension_filter_names {V} (f : string * V -> Result Cell) (P : string -> bool)
    (l : list (string * V)) (ys : list Cell) :
  comprehension f l = Ok ys ->
  comprehension f (List.filter (fun d => P d.1) l)
  = Ok (map snd (List.filter (fun cv : string * Cell => P cv.1) (combine (map fst l) ys))).
Proof.
  revert ys. induction l as [|d l IH]; simpl; intros ys H.
  - reflexivity.
  - destruct (f d) as [y|e] eqn:Hd; [|discriminate]. simpl in H.
    destruct (comprehension f l) as [ys'|e] eqn:Hl; [|discriminate].
    injection H as <-. simpl.
    destruct (P d.1); simpl; rewrite ?Hd; simpl; rewrite (IH ys' eq_refl); reflexivity.
Qed.

Lemma map_fst_filter {V} (P : string -> bool) (l : list (string * V)) :
  map fst (List.filter (fun d => P d.1) l) = List.filter P (map fst l).
Proof.
  induction l as [|d l IH]; [reflexivity|].
  simpl. destruct (P d.1); simpl; now rewrite IH.
Qed.

Lemma filter_all {A} (P : A -> bool) (l : list A) :
  (forall x, P x = true) -> List.filter P l = l.
Proof.
  intros HP. induction l as [|x l IH]; [reflexivity|].
  simpl. now rewrite HP, IH.
Qed.

Lemma pd_DataFrame_rows_Ok (rows : list (list Cell)) (columns : list string) :
  Forall (fun r => length r = length columns) rows ->
  pd_DataFrame_rows rows columns
  = Ok {| df_index := RangeIndex (length rows); df_columns := Index columns;
          df_values := rows |}.
Proof.
  intros Hrows. unfold pd_DataFrame_rows.
  replace (forallb _ rows) with true; [reflexivity|].
  symmetry. apply forallb_forall. intros r Hr. apply Nat.eqb_eq.
  rewrite Forall_forall in Hrows. apply Hrows. now apply list_elem_of_In.
Qed.

Lemma pd_DataFrame_rows_inv (rows : list (list Cell)) (columns : list string)
    (df : DataFrame) :
  pd_DataFrame_rows rows columns = Ok df ->
  df = {| df_index := RangeIndex (length rows); df_columns := Index columns;
          df_values := rows |}.
Proof.
  unfold pd_DataFrame_rows. destruct (forallb _ rows); [|discriminate].
  now intros [= <-].
Qed.

Section RdkitDescriptors.

Import DescriptorGenerator.
Variable tk : Toolkit.

Local Arguments descriptor_value : simpl never.

Lemma parse_descList_filter (use_fragment : PyVal) (dl : list (string * DescFn)) :
  parse_descList use_fragment dl
  = (map fst (List.filter (keep_descriptor use_fragment) dl),
     List.filter (keep_descriptor use_fragment) dl).
Proof.
  unfold parse_descList.
  enough (Hgen : forall acc1 acc2,
    fold_left
      (fun acc d =>
         if is_False use_fragment && startswith "fr_" d.1 then acc
         else ((acc.1 ++ [d.1])%list, (acc.2 ++ [d])%list))
      dl (acc1, acc2)
    = ((acc1 ++ map fst (List.filter (keep_descriptor use_fragment) dl))%list,
       (acc2 ++ List.filter (keep_descriptor use_fragment) dl)%list))
    by apply (Hgen [] []).
  induction dl as [|d dl IH]; intros acc1 acc2; simpl.
  - now rewrite !app_nil_r.
  - pose proof (eq_refl : keep_descriptor use_fragment d
                           = negb (is_False use_fragment && startswith "fr_" d.1)) as Hk.
    destruct (is_False use_fragment && startswith "fr_" d.1); simpl in Hk; rewrite Hk.
    + apply IH.
    + rewrite IH. simpl. now rewrite <- !app_assoc.
Qed.

Lemma features_loop_comprehension (mol : RDKitMol) (ipc_avg : PyVal)
    (dl : list (string * DescFn)) (acc : list Cell) :
  features_loop mol ipc_avg dl acc
  = (features ← comprehension (descriptor_value mol ipc_avg) dl; Ok (acc ++ features)%list).
Proof.
  revert acc. induction dl as [|[name f] dl IH]; intros acc; simpl.
  - now rewrite app_nil_r.
  - change (if String.eqb name "Ipc" && truthy ipc_avg then fn_avg f mol else fn f mol)
      with (descriptor_value mol ipc_avg (name, f)).
    destruct (descriptor_value mol ipc_avg (name, f)) as [c|e]; simpl; [|reflexivity].
    rewrite IH. destruct (comprehension _ dl); simpl; [|reflexivity].
    now rewrite <- app_assoc.
Qed.

(** The call of [_rdkit_descriptors_low] made by [rdkit_descriptors]. *)
Lemma call_low_from_rdkit_descriptors (mol : RDKitMol) (dl : list (string * DescFn))
    (ipc_avg : PyVal) (kwargs : Kwargs) :
  call__rdkit_descriptors_low (VMol mol :: map VStr (keys kwargs))
    [("desc_list", VDescList dl); ("ipc_avg", ipc_avg)]
  = match kwargs with
    | [] => comprehension (descriptor_value mol ipc_avg) dl
    | _ :: _ =>
        Raise (TypeError
                 "_rdkit_descriptors_low() got multiple values for argument 'desc_list'")
    end.
Proof.
  destruct kwargs as [|[k v] rest].
  - unfold call__rdkit_descriptors_low, bind. simpl.
    unfold _rdkit_descriptors_low. simpl.
    rewrite features_loop_comprehension. simpl. apply bind_Ok_id.
  - reflexivity.
Qed.

Lemma rdkit_descriptors_unfold (ms : list RDKitMol) (use_fragment ipc_avg : PyVal)
    (kwargs : Kwargs) :
  rdkit_descriptors tk ms use_fragment ipc_avg kwargs
  = (rows ← comprehension
       (fun mol =>
          match kwargs with
          | [] => rdkit_row tk use_fragment ipc_avg mol
          | _ :: _ =>
              Raise (TypeError
                  "_rdkit_descriptors_low() got multiple values for argument 'desc_list'")
          end) ms;
     pd_DataFrame_rows rows
       (map fst (List.filter (keep_descriptor use_fragment) (descList tk)))).
Proof.
  unfold rdkit_descriptors. rewrite parse_descList_filter.
  rewrite length_map, Nat.eqb_refl. simpl.
  erewrite comprehension_ext; [reflexivity|].
  intros mol. rewrite call_low_from_rdkit_descriptors. now destruct kwargs.
Qed.

(** C4: when [rdkit_descriptors] returns a table with [use_fragment=True],
    it returns one with [use_fragment=False] too; the columns of the second
    are the columns of the first whose name does not start with "fr_", in
    the same order; at least one column is gone (the registry has a
    fragment descriptor); and each row is the row of the first table
    without the cells of the columns that are gone. *)
Theorem rdkit_descriptors_without_fragments (ms : list RDKitMol) (ipc_avg : PyVal)
    (kwargs : Kwargs) (df_all : DataFrame) :
  (exists name, In name (map fst (descList tk)) /\ startswith "fr_" name = true) ->
  rdkit_descriptors tk ms (VBool true) ipc_avg kwargs = Ok df_all ->
  exists df_nofrag names_all names_nofrag,
    rdkit_descriptors tk ms (VBool false) ipc_avg kwargs = Ok df_nofrag
    /\ df_columns df_all = Index names_all
    /\ df_columns df_nofrag = Index names_nofrag
    /\ names_nofrag = List.filter (fun name => negb (startswith "fr_" name)) names_all
    /\ (forall name, In name names_nofrag -> In name names_all)
    /\ (exists name, In name names_all /\ ~ In name names_nofrag)
    /\ df_values df_nofrag = map (drop_fragment_cells names_all) (df_values df_all).
Proof.
  intros (frag & Hin & Hfrag) Hall.
  rewrite rdkit_descriptors_unfold in Hall.
  rewrite (filter_all (keep_descriptor (VBool true))) in Hall by reflexivity.
  destruct (comprehension _ ms) as [rows|e] eqn:Hrows; [|discriminate].
  simpl in Hall. apply pd_DataFrame_rows_inv in Hall. subst df_all. simpl.
  set (names_all := map fst (descList tk)) in *.
  set (P := fun name : string => negb (startswith "fr_" name)).
  assert (Hkeep : List.filter (keep_descriptor (VBool false)) (descList tk)
                  = List.filter (fun d => P d.1) (descList tk)) by reflexivity.
  assert (Hrows' : Forall2
            (fun mol row =>
               match kwargs with
               | [] => rdkit_row tk (VBool false) ipc_avg mol
               | _ :: _ =>
                   Raise (TypeError
                     "_rdkit_descriptors_low() got multiple values for argument 'desc_list'")
               end = Ok row
               /\ length row = length (List.filter P names_all))
            ms (map (drop_fragment_cells names_all) rows)).
  { apply Forall2_fmap_r. apply comprehension_Forall2 in Hrows.
    eapply Forall2_impl; [exact Hrows|]. intros mol row Hrow. simpl in Hrow.
    destruct kwargs; [|discriminate].
    unfold rdkit_row in Hrow.
    rewrite (filter_all (keep_descriptor (VBool true))) in Hrow by reflexivity.
    assert (Hnofrag : rdkit_row tk (VBool false) ipc_avg mol
                      = Ok (drop_fragment_cells names_all row)).
    { unfold rdkit_row. rewrite Hkeep.
      apply (comprehension_filter_names _ P _ _ Hrow). }
    split; [exact Hnofrag|].
    unfold rdkit_row in Hnofrag. apply comprehension_length in Hnofrag.
    rewrite Hnofrag, Hkeep. unfold names_all.
    now rewrite <- map_fst_filter, length_map. }
  exists {| df_index := RangeIndex (length (map (drop_fragment_cells names_all) rows));
            df_columns := Index (List.filter P names_all);
            df_values := map (drop_fragment_cells names_all) rows |},
         names_all, (List.filter P names_all).
  split.
  { rewrite rdkit_descriptors_unfold, Hkeep, map_fst_filter.
    fold names_all.
    rewrite (Forall2_comprehension _ ms (map (drop_fragment_cells names_all) rows)).
    - simpl. apply pd_DataFrame_rows_Ok.
      eapply Forall2_Forall_r; [exact Hrows'|].
      apply Forall_forall. intros mol _ row Hrow. apply Hrow.
    - eapply Forall2_impl; [exact Hrows'|]. intros mol row Hrow. apply Hrow. }
  repeat split.
  - intros name Hname. apply filter_In in Hname. apply Hname.
  - exists frag. split; [exact Hin|].
    intros Hname. apply filter_In in Hname. destruct Hname as [_ Hname].
    unfold P in Hname. rewrite Hfrag in Hname. discriminate.
Qed.

End RdkitDescriptors.

Lemma rdkit_descriptors_without_fragments_witness :
  exists df_all df_nofrag,
    DescriptorGenerator.rdkit_descriptors Demo.tk [Demo.ethanol; Demo.benzene]
      (VBool true) (VBool true) [] = Ok df_all
    /\ DescriptorGenerator.rdkit_descriptors Demo.tk [Demo.ethanol; Demo.benzene]
         (VBool false) (VBool true) [] = Ok df_nofrag
    /\ df_values df_nofrag
       = map (drop_fragment_cells (map fst Demo.descriptors)) (df_values df_all).
Proof.
  destruct (DescriptorGenerator.rdkit_descriptors Demo.tk [Demo.ethanol; Demo.benzene]
              (VBool true) (VBool true) []) as [df_all|e] eqn:Hall;
    [|vm_compute in Hall; discriminate].
  destruct (rdkit_descriptors_without_fragments Demo.tk [Demo.ethanol; Demo.benzene]
              (VBool true) [] df_all) as (df_nofrag & names_all & names_nofrag & Hnofrag
                                          & Hcols & _ & _ & _ & _ & Hrows).
  - exists "fr_benzene". split; [apply str_in_In|]; vm_compute; reflexivity.
  - exact Hall.
  - exists df_all, df_nofrag. split; [reflexivity|]. split; [exact Hnofrag|].
    rewrite Hrows. f_equal.
    assert (Hdf : df_columns df_all = Index (map fst Demo.descriptors)).
    { vm_compute in Hall. injection Hall as <-. vm_compute. reflexivity. }
    rewrite Hcols in Hdf. injection Hdf as ->. reflexivity.
Defined.

(** ** One row per molecule *)

Lemma Forall2_map_diag {A B} (P : A -> B -> Prop) (f : A -> B) (l : list A) :
  (forall x, P x (f x)) -> Forall2 P l (map f l).
Proof. intros HP. induction l; constructor; auto. Qed.

Lemma Forall_is_Ok_Forall2 {A B} (f : A -> Result B) (l : list A) :
  Forall (fun x => is_Ok (f x)) l -> exists ys, Forall2 (fun x y => f x = Ok y) l ys.
Proof.
  induction 1 as [|x l [y Hy] _ [ys IH]].
  - exists []. constructor.
  - exists (y :: ys). now constructor.
Qed.

(** A dictionary built from items with distinct keys is the list of items,
    and each key leads to its value. *)
Lemma dict_set_fresh {V} (k : string) (v : V) (d : list (string * V)) :
  ~ In k (map fst d) -> dict_set k v d = (d ++ [(k, v)])%list.
Proof.
  induction d as [|[k' v'] d IH]; simpl; intros Hk; [reflexivity|].
  destruct (String.eqb_spec k' k) as [->|_]; [tauto|].
  rewrite IH by tauto. reflexivity.
Qed.

Lemma dict_of_distinct {V} (items : list (string * V)) :
  NoDup (map fst items) -> dict_of items = items.
Proof.
  unfold dict_of.
  enough (Hgen : forall acc, NoDup (map fst (acc ++ items)%list) ->
            fold_left (fun d kv => dict_set kv.1 kv.2 d) items acc = (acc ++ items)%list)
    by apply (Hgen []).
  induction items as [|[k v] items IH]; intros acc Hnd; simpl.
  - now rewrite app_nil_r.
  - rewrite dict_set_fresh.
    + rewrite IH; rewrite <- app_assoc; [reflexivity | exact Hnd].
    + rewrite map_app in Hnd. simpl in Hnd.
      apply NoDup_app in Hnd. destruct Hnd as (_ & Hdisj & _).
      intros Hk. apply (Hdisj k); [now apply list_elem_of_In | left].
Qed.

Lemma dict_get_distinct {V} (d : list (string * V)) (k : string) (v : V) :
  NoDup (map fst d) -> In (k, v) d -> dict_get k d = Some v.
Proof.
  induction d as [|[k' v'] d IH]; simpl; intros Hnd Hin; [tauto|].
  apply NoDup_cons in Hnd. destruct Hnd as [Hk' Hnd].
  destruct Hin as [[= -> ->]|Hin].
  - now rewrite String.eqb_refl.
  - destruct (String.eqb_spec k' k) as [->|_]; [|now apply IH].
    exfalso. apply Hk'. apply list_elem_of_In, in_map_iff. now exists (k, v).
Qed.

Lemma comprehension_dict_items (d : list (string * DescFn)) (mol : RDKitMol) :
  NoDup (map fst d) ->
  comprehension (fun k => function ← dict_item d k; fn function mol) (map fst d)
  = comprehension (fun kv : string * DescFn => fn kv.2 mol) d.
Proof.
  intros Hnd.
  enough (Hgen : forall l, (forall kv, In kv l -> In kv d) ->
            comprehension (fun k => function ← dict_item d k; fn function mol) (map fst l)
            = comprehension (fun kv : string * DescFn => fn kv.2 mol) l)
    by (apply Hgen; auto).
  induction l as [|[k f] l IH]; intros Hsub; [reflexivity|].
  cbn [map comprehension fst snd].
  assert (Hk : dict_item d k = Ok f).
  { unfold dict_item. now rewrite (dict_get_distinct d k f Hnd) by (apply Hsub; now left). }
  rewrite Hk. cbn [mbind Result_bind]. rewrite IH by (intros kv Hkv; apply Hsub; now right).
  reflexivity.
Qed.

Section RowsPerMolecule.

Import DescriptorGenerator.
Variable tk : Toolkit.

(** The loop of [rdkit_fragment_descriptors] replaces the rows of the zero
    array one after the other, from index [length done] on. *)
Lemma fragment_loop_rows (fragments : list (string * DescFn)) (ms : list RDKitMol) :
  forall (done todo rest rows : list (list Cell)),
  length todo = length ms ->
  Forall2 (fun mol row =>
             comprehension (fun d => function ← dict_item fragments d; fn function mol)
                           (map fst fragments) = Ok row) ms rows ->
  fragment_loop tk fragments (length done) ms
    {| nd_cols := length fragments; nd_rows := (done ++ todo ++ rest)%list |}
  = Ok {| nd_cols := length fragments;
          nd_rows := (done ++ map (map (float64 tk)) rows ++ rest)%list |}.
Proof.
  induction ms as [|mol ms IH]; intros done todo rest rows Hlen Hrows.
  - destruct todo; [|discriminate]. inversion Hrows; subst. reflexivity.
  - destruct todo as [|zero todo]; [discriminate|].
    inversion Hrows as [|? row ? rows' Hrow Hrows']; subst.
    cbn [fragment_loop]. rewrite Hrow. cbn [mbind Result_bind].
    unfold nd_set_row. cbn [nd_rows nd_cols].
    replace (Nat.ltb (length done) (length (done ++ (zero :: todo) ++ rest)%list)) with true
      by (symmetry; apply Nat.ltb_lt; rewrite !length_app; simpl; lia).
    replace (Nat.eqb (length row) (length fragments)) with true
      by (symmetry; apply Nat.eqb_eq; rewrite (comprehension_length _ _ _ Hrow);
          apply length_map).
    cbn [negb mbind Result_bind].
    rewrite insert_app_r_alt, Nat.sub_diag by lia. cbn [app].
    change (<[0 := map (float64 tk) row]> (zero :: (todo ++ rest)%list))
      with (map (float64 tk) row :: (todo ++ rest)%list).
    replace (S (length done)) with (length (done ++ [map (float64 tk) row])%list)
      by (rewrite length_app; simpl; lia).
    replace (done ++ map (float64 tk) row :: (todo ++ rest))%list
      with ((done ++ [map (float64 tk) row]) ++ todo ++ rest)%list
      by (now rewrite <- app_assoc).
    rewrite (IH _ todo rest rows') by (simpl in Hlen; auto with arith).
    simpl. now rewrite <- app_assoc.
Qed.

Lemma rdkit_fragment_descriptors_rows (ms : list RDKitMol) (rows : list (list Cell)) :
  NoDup (map fst (drop 115 (descList tk))) ->
  Forall2 (fun mol row => fragment_row tk mol = Ok row) ms rows ->
  rdkit_fragment_descriptors tk ms
  = Ok {| df_index := RangeIndex (length ms);
          df_columns := Index (map fst (drop 115 (descList tk)));
          df_values := rows |}.
Proof.
  intros Hnd Hrows. unfold rdkit_fragment_descriptors.
  assert (Hraw : exists raw,
    Forall2 (fun mol row =>
               comprehension
                 (fun d => function ← dict_item (dict_of (drop 115 (descList tk))) d;
                           fn function mol)
                 (map fst (dict_of (drop 115 (descList tk)))) = Ok row) ms raw
    /\ rows = map (map (float64 tk)) raw).
  { clear -Hnd Hrows. induction Hrows as [|mol row ms rows Hrow _ (raw & Hraw & ->)].
    - exists []. split; [constructor | reflexivity].
    - unfold fragment_row in Hrow.
      rewrite <- comprehension_dict_items in Hrow
        by (rewrite dict_of_distinct; assumption).
      destruct (comprehension _ (map fst _)) as [r|e] eqn:Hr; [|discriminate].
      injection Hrow as <-. exists (r :: raw). split; [now constructor | reflexivity]. }
  destruct Hraw as (raw & Hraw & ->).
  pose proof (fragment_loop_rows (dict_of (drop 115 (descList tk))) ms []
                (replicate (length ms) (replicate (length (dict_of (drop 115 (descList tk))))
                                                  (CFloat 0)))
                [] raw (length_replicate _ _) Hraw) as Hloop.
  simpl in Hloop. rewrite !app_nil_r in Hloop.
  unfold np_zeros. rewrite Hloop. simpl.
  unfold pd_DataFrame_array. simpl.
  rewrite (dict_of_distinct _ Hnd), length_map, Nat.eqb_refl.
  rewrite length_map, <- (Forall2_length _ _ _ Hraw). reflexivity.
Qed.

Variable mordred_row : RDKitMol -> list Cell.
Variable padel_record : RDKitMol -> list (string * string).
Hypothesis Hmordred : mordred_follows_molecules tk mordred_row.
Hypothesis Hpadel : padel_follows_molecules tk padel_record.
Hypothesis Hnames : NoDup (map fst (drop 115 (descList tk))).

(** C5: for each of the four selectors, when the calls into the toolkit
    return (and, for [rdkit], no extra keyword argument is passed),
    [compute_descriptor] returns a table indexed [0 .. n-1] with as many
    rows as molecules, the i-th row being the row of the i-th molecule.
    This holds for every molecule list, the non-empty ones among them. *)
Theorem compute_descriptor_one_row_per_molecule (self : t) (kwargs : Kwargs)
    (fs : gmap string (list RDKitMol)) :
  In (lower (desc_type self)) ["mordred"; "padel"; "rdkit"; "rdkit_frag"] ->
  (lower (desc_type self) = "rdkit" -> kwargs = []) ->
  backend_returns tk self ->
  exists df fs',
    compute_descriptor tk self kwargs fs = (Ok df, fs')
    /\ df_index df = RangeIndex (length (mols self))
    /\ length (df_values df) = length (mols self)
    /\ Forall2 (row_of tk mordred_row padel_record self (df_columns df))
               (mols self) (df_values df).
Proof.
  intros Hsel Hkw Hret.
  unfold backend_returns in Hret. unfold compute_descriptor, row_of.
  simpl in Hsel. destruct Hsel as [Hs|[Hs|[Hs|[Hs|[]]]]]; rewrite <- Hs in *;
    cbn [String.eqb Ascii.eqb Bool.eqb] in *.
  - (* mordred *)
    destruct Hret as [df Hdf]. destruct (Hmordred _ _ Hdf) as [Hidx Hval].
    exists df, fs. unfold lift, mordred_descriptors. rewrite Hdf. simpl.
    repeat split; [exact Hidx | rewrite Hval; apply length_map |].
    rewrite Hval. now apply Forall2_map_diag.
  - (* padel *)
    destruct Hret as [desc Hdesc]. pose proof (Hpadel _ _ Hdesc) as ->.
    eexists _, _. split; [apply (padelpy_descriptors_returns tk _ _ _ Hdesc)|].
    simpl. rewrite !length_map. repeat split.
    rewrite (map_map padel_record (record_row _) (mols self)). apply Forall2_map_diag.
    intros mol. eexists. split; reflexivity.
  - (* rdkit *)
    rewrite (Hkw eq_refl).
    destruct (Forall_is_Ok_Forall2 _ _ Hret) as [rows Hrows].
    exists {| df_index := RangeIndex (length rows);
              df_columns :=
                Index (map fst (List.filter (keep_descriptor (VBool (use_fragment self)))
                                            (descList tk)));
              df_values := rows |}, fs.
    pose proof (Forall2_length _ _ _ Hrows) as Hlen.
    split; [|simpl; rewrite <- Hlen; auto].
    unfold lift. f_equal.
    change (call_rdkit_descriptors tk (VMols (mols self) :: map VStr (keys []))
              [("use_fragment", VBool (use_fragment self));
               ("ipc_avg", VBool (ipc_avg self))])
      with (rdkit_descriptors tk (mols self) (VBool (use_fragment self))
              (VBool (ipc_avg self)) []).
    rewrite rdkit_descriptors_unfold. cbv beta iota.
    rewrite (Forall2_comprehension (fun mol => rdkit_row tk _ _ mol) _ _ Hrows).
    cbn [mbind Result_bind].
    apply pd_DataFrame_rows_Ok.
    eapply Forall2_Forall_r; [exact Hrows|]. apply Forall_forall.
    intros mol _ row Hrow. unfold rdkit_row in Hrow.
    rewrite (comprehension_length _ _ _ Hrow). now rewrite length_map.
  - (* rdkit_frag *)
    destruct (Forall_is_Ok_Forall2 _ _ Hret) as [rows Hrows].
    eexists _, fs. unfold lift.
    rewrite (rdkit_fragment_descriptors_rows _ rows Hnames Hrows).
    split; [reflexivity|]. simpl.
    repeat split; [symmetry; exact (Forall2_length _ _ _ Hrows) | exact Hrows].
Qed.

End RowsPerMolecule.

Lemma demo_mordred_follows_molecules :
  mordred_follows_molecules Demo.tk
    (fun mol => [CInt (Z.of_nat (String.length (mol_block mol)))]).
Proof. intros ms df H. simpl in H. injection H as <-. split; reflexivity. Qed.

Lemma demo_padel_follows_molecules :
  padel_follows_molecules Demo.tk (fun mol => [("nAtom", mol_block mol)]).
Proof. intros ms desc H. simpl in H. now injection H as <-. Qed.

Lemma demo_fragment_names_distinct : NoDup (map fst (drop 115 (descList Demo.tk))).
Proof.
  vm_compute. repeat constructor; rewrite ?list_elem_of_In; simpl; intuition discriminate.
Qed.

Lemma compute_descriptor_one_row_per_molecule_witness :
  exists df fs',
    DescriptorGenerator.compute_descriptor Demo.tk
      (DescriptorGenerator.__init__ [Demo.ethanol; Demo.benzene] "RDKit_Frag" true true)
      [] ∅ = (Ok df, fs')
    /\ df_index df = RangeIndex 2
    /\ length (df_values df) = 2
    /\ Forall2 (fun mol row => fragment_row Demo.tk mol = Ok row)
               [Demo.ethanol; Demo.benzene] (df_values df).
Proof.
  apply (compute_descriptor_one_row_per_molecule Demo.tk _ _
           demo_mordred_follows_molecules demo_padel_follows_molecules
           demo_fragment_names_distinct
           (DescriptorGenerator.__init__ [Demo.ethanol; Demo.benzene] "RDKit_Frag" true true)
           [] ∅).
  - vm_compute. tauto.
  - vm_compute. discriminate.
  - repeat constructor; eexists; vm_compute; reflexivity.
Defined.

(** * Further properties of the module *)

(** ** [_rdkit_descriptors_low] *)

Lemma low_features (mol : RDKitMol) (dl : list (string * DescFn)) (ipc_avg : PyVal)
    (kwargs : Kwargs) (features : list Cell) :
  _rdkit_descriptors_low mol dl ipc_avg kwargs = Ok features ->
  Forall2 (fun d c => descriptor_value mol ipc_avg d = Ok c) dl features.
Proof.
  unfold _rdkit_descriptors_low. destruct (dict_contains "mol" kwargs); [discriminate|].
  rewrite features_loop_comprehension.
  destruct (comprehension _ dl) as [cs|e] eqn:Hcs; [|discriminate].
  simpl. intros [= <-]. now apply comprehension_Forall2.
Qed.

Lemma descriptor_value_not_Ipc (mol : RDKitMol) (ipc_avg : PyVal) (d : string * DescFn) :
  d.1 <> "Ipc" -> descriptor_value mol ipc_avg d = fn d.2 mol.
Proof.
  intros Hd. unfold descriptor_value.
  destruct (String.eqb_spec d.1 "Ipc"); [contradiction | reflexivity].
Qed.

(** X1: when [_rdkit_descriptors_low] returns, the list has one feature per
    entry of [desc_list], in the order of [desc_list]: the i-th feature is
    the value of the i-th descriptor function on the molecule. *)
Theorem rdkit_descriptors_low_one_feature_per_descriptor (mol : RDKitMol)
    (dl : list (string * DescFn)) (ipc_avg : PyVal) (kwargs : Kwargs)
    (features : list Cell) :
  _rdkit_descriptors_low mol dl ipc_avg kwargs = Ok features ->
  length features = length dl
  /\ forall (i : nat) (d : string * DescFn),
       dl !! i = Some d ->
       exists c, features !! i = Some c
                 /\ (if String.eqb d.1 "Ipc" && truthy ipc_avg
                     then fn_avg d.2 mol else fn d.2 mol) = Ok c.
Proof.
  intros H. apply low_features in H. split.
  - symmetry. exact (Forall2_length _ _ _ H).
  - intros i d Hd. destruct (Forall2_lookup_l _ _ _ _ _ H Hd) as (c & Hc & Hv).
    exists c. split; [exact Hc | exact Hv].
Qed.

Lemma rdkit_descriptors_low_one_feature_per_descriptor_witness :
  length [CInt 3; CInt 1] = 2
  /\ forall (i : nat) (d : string * DescFn),
       [("MolWt", Demo.count_fn 0); ("Ipc", Demo.count_fn 1)] !! i = Some d ->
       exists c, [CInt 3; CInt 1] !! i = Some c
                 /\ (if String.eqb d.1 "Ipc" && truthy (VBool true)
                     then fn_avg d.2 Demo.ethanol else fn d.2 Demo.ethanol) = Ok c.
Proof.
  apply (rdkit_descriptors_low_one_feature_per_descriptor Demo.ethanol
           [("MolWt", Demo.count_fn 0); ("Ipc", Demo.count_fn 1)] (VBool true) []).
  reflexivity.
Defined.

(** X2: [ipc_avg] acts through its truth value and on descriptors named
    "Ipc" only: two values of the same truth value give the same outcome,
    and two returned feature lists agree at every position whose descriptor
    is not named "Ipc". *)
Theorem ipc_avg_only_changes_Ipc (mol : RDKitMol) (dl : list (string * DescFn))
    (ipc1 ipc2 : PyVal) (kwargs : Kwargs) :
  (truthy ipc1 = truthy ipc2 ->
     _rdkit_descriptors_low mol dl ipc1 kwargs = _rdkit_descriptors_low mol dl ipc2 kwargs)
  /\ (forall (f1 f2 : list Cell),
        _rdkit_descriptors_low mol dl ipc1 kwargs = Ok f1 ->
        _rdkit_descriptors_low mol dl ipc2 kwargs = Ok f2 ->
        forall (i : nat) (d : string * DescFn) (c1 c2 : Cell),
          dl !! i = Some d -> f1 !! i = Some c1 -> f2 !! i = Some c2 ->
          d.1 <> "Ipc" -> c1 = c2).
Proof.
  split.
  - intros Htruth. unfold _rdkit_descriptors_low.
    destruct (dict_contains "mol" kwargs); [reflexivity|].
    rewrite !features_loop_comprehension.
    rewrite (comprehension_ext (descriptor_value mol ipc1) (descriptor_value mol ipc2));
      [reflexivity|].
    intros d. unfold descriptor_value. now rewrite Htruth.
  - intros f1 f2 H1 H2 i d c1 c2 Hd Hc1 Hc2 Hname.
    apply low_features in H1. apply low_features in H2.
    pose proof (Forall2_lookup_lr _ _ _ _ _ _ H1 Hd Hc1) as E1.
    pose proof (Forall2_lookup_lr _ _ _ _ _ _ H2 Hd Hc2) as E2.
    simpl in E1, E2.
    rewrite descriptor_value_not_Ipc in E1, E2 by assumption. congruence.
Qed.

Lemma ipc_avg_only_changes_Ipc_witness :
  _rdkit_descriptors_low Demo.ethanol
    [("MolWt", Demo.count_fn 0); ("Ipc", Demo.count_fn 1)] (VInt 7) []
  = _rdkit_descriptors_low Demo.ethanol
      [("MolWt", Demo.count_fn 0); ("Ipc", Demo.count_fn 1)] (VBool true) [].
Proof.
  apply (proj1 (ipc_avg_only_changes_Ipc Demo.ethanol
                  [("MolWt", Demo.count_fn 0); ("Ipc", Demo.count_fn 1)]
                  (VInt 7) (VBool true) [])).
  reflexivity.
Defined.

(** ** [rdkit_descriptors] *)

Lemma comprehension_first_raise {A B} (f : A -> Result B) (pre post : list A) (x : A)
    (e : exn) :
  Forall (fun a => is_Ok (f a)) pre -> f x = Raise e ->
  comprehension f (pre ++ x :: post)%list = Raise e.
Proof.
  intros Hpre Hx. induction Hpre as [|a pre [b Hb] _ IH]; simpl.
  - now rewrite Hx.
  - now rewrite Hb, IH.
Qed.

Section RdkitDescriptorsMore.

Import DescriptorGenerator.
Variable tk : Toolkit.

(** X3: fragment descriptors are dropped by the identity test
    [use_fragment is False] alone: with any other value, a falsy one such as
    [0] or [None] included, [rdkit_descriptors] does what it does with
    [use_fragment=True]. *)
Theorem use_fragment_tested_by_identity (ms : list RDKitMol) (use_fragment ipc_avg : PyVal)
    (kwargs : Kwargs) :
  use_fragment <> VBool false ->
  rdkit_descriptors tk ms use_fragment ipc_avg kwargs
  = rdkit_descriptors tk ms (VBool true) ipc_avg kwargs.
Proof.
  intros Huse.
  assert (Hid : is_False use_fragment = false).
  { destruct use_fragment as [| [|] | | | | | | |]; try reflexivity. congruence. }
  rewrite !rdkit_descriptors_unfold.
  assert (Hkeep : List.filter (keep_descriptor use_fragment) (descList tk)
                  = List.filter (keep_descriptor (VBool true)) (descList tk)).
  { apply filter_ext. intros d. unfold keep_descriptor. now rewrite Hid. }
  unfold rdkit_row. now rewrite Hkeep.
Qed.

(** X4: called with an extra keyword argument, [rdkit_descriptors] unpacks
    it positionally into its call of [_rdkit_descriptors_low]: with a
    molecule in the list that call fails in argument binding and the
    [TypeError] is what [rdkit_descriptors] raises; with an empty list the
    call is never made and the table of the column names, without rows, is
    returned. *)
Theorem rdkit_descriptors_extra_keywords (ms : list RDKitMol) (use_fragment ipc_avg : PyVal)
    (kwargs : Kwargs) :
  kwargs <> [] ->
  (ms <> [] ->
     rdkit_descriptors tk ms use_fragment ipc_avg kwargs
     = Raise (TypeError
                "_rdkit_descriptors_low() got multiple values for argument 'desc_list'"))
  /\ (ms = [] ->
        rdkit_descriptors tk ms use_fragment ipc_avg kwargs
        = Ok {| df_index := RangeIndex 0;
                df_columns :=
                  Index (map fst (List.filter (keep_descriptor use_fragment) (descList tk)));
                df_values := [] |}).
Proof.
  intros Hkw. rewrite rdkit_descriptors_unfold.
  destruct kwargs as [|kv rest]; [congruence|].
  split.
  - intros Hms. destruct ms as [|mol ms']; [congruence | reflexivity].
  - intros ->. reflexivity.
Qed.

(** X5: no partial table: when the descriptors of the molecules before
    some molecule are all computed and a descriptor function raises on that
    molecule, [rdkit_descriptors] raises that exception, whatever the
    molecules after it are. *)
Theorem rdkit_descriptors_first_failure (pre post : list RDKitMol) (mol : RDKitMol)
    (use_fragment ipc_avg : PyVal) (e : exn) :
  Forall (fun m => is_Ok (rdkit_row tk use_fragment ipc_avg m)) pre ->
  rdkit_row tk use_fragment ipc_avg mol = Raise e ->
  rdkit_descriptors tk (pre ++ mol :: post)%list use_fragment ipc_avg [] = Raise e.
Proof.
  intros Hpre Hmol. rewrite rdkit_descriptors_unfold. cbv beta iota.
  rewrite (comprehension_first_raise (fun m => rdkit_row tk use_fragment ipc_avg m)
             pre post mol e Hpre Hmol).
  reflexivity.
Qed.

End RdkitDescriptorsMore.

Lemma use_fragment_tested_by_identity_witness :
  DescriptorGenerator.rdkit_descriptors Demo.tk [Demo.ethanol] (VInt 0) (VBool true) []
  = DescriptorGenerator.rdkit_descriptors Demo.tk [Demo.ethanol] (VBool true) (VBool true) [].
Proof.
  apply (use_fragment_tested_by_identity Demo.tk [Demo.ethanol] (VInt 0) (VBool true) []).
  discriminate.
Defined.

Lemma rdkit_descriptors_extra_keywords_witness :
  DescriptorGenerator.rdkit_descriptors Demo.tk [Demo.ethanol] (VBool true) (VBool true)
    [("mol", VMol Demo.benzene)]
  = Raise (TypeError "_rdkit_descriptors_low() got multiple values for argument 'desc_list'").
Proof.
  apply (rdkit_descriptors_extra_keywords Demo.tk [Demo.ethanol] (VBool true) (VBool true)
           [("mol", VMol Demo.benzene)]); discriminate.
Defined.

Lemma rdkit_descriptors_first_failure_witness :
  DescriptorGenerator.rdkit_descriptors
    (Demo.with_descList [("MolWt", Demo.count_fn 0); ("NumAliphaticRings", Demo.aliphatic_fn)])
    ([Demo.ethanol] ++ Demo.benzene :: [Demo.ethanol])%list (VBool true) (VBool true) []
  = Raise (ValueError "aromatic structure").
Proof.
  apply (rdkit_descriptors_first_failure
           (Demo.with_descList
              [("MolWt", Demo.count_fn 0); ("NumAliphaticRings", Demo.aliphatic_fn)])
           [Demo.ethanol] [Demo.ethanol] Demo.benzene (VBool true) (VBool true)
           (ValueError "aromatic structure")).
  - repeat constructor. eexists. vm_compute. reflexivity.
  - vm_compute. reflexivity.
Defined.

(** ** [compute_descriptor] and the working directory *)

Section DescriptorDirectory.

Import DescriptorGenerator.
Variable tk : Toolkit.

(** X6: whatever the selector and the outcome, [compute_descriptor] leaves
    every file other than "padelpy_out_tmp.sdf" as it was, and its result
    does not depend on what the working directory held: a file of that name
    left by an earlier call is overwritten, not read. *)
Theorem compute_descriptor_directory (self : t) (kwargs : Kwargs)
    (fs : gmap string (list RDKitMol)) :
  (forall path, path <> "padelpy_out_tmp.sdf" ->
     (compute_descriptor tk self kwargs fs).2 !! path = fs !! path)
  /\ (forall fs', (compute_descriptor tk self kwargs fs').1
                  = (compute_descriptor tk self kwargs fs).1).
Proof.
  unfold compute_descriptor.
  destruct (String.eqb _ "mordred"); [split; reflexivity|].
  destruct (String.eqb _ "padel").
  - destruct (from_sdf tk (mols self)) as [desc|e] eqn:Htool.
    + split.
      * intros path Hpath. rewrite (padelpy_descriptors_returns tk _ _ _ Htool). simpl.
        now apply lookup_delete_ne.
      * intros fs'. now rewrite !(padelpy_descriptors_returns tk _ _ _ Htool).
    + split.
      * intros path Hpath. rewrite (padelpy_descriptors_raises tk _ _ _ Htool). simpl.
        now apply lookup_insert_ne.
      * intros fs'. now rewrite !(padelpy_descriptors_raises tk _ _ _ Htool).
  - destruct (String.eqb _ "rdkit"); [split; reflexivity|].
    destruct (String.eqb _ "rdkit_frag"); split; reflexivity.
Qed.

(** X7: the descriptor selector is read through [lower()] only: two
    generators that differ in the case of a supported [desc_type] and in
    nothing else behave alike. *)
Theorem compute_descriptor_selector_case (ms : list RDKitMol) (d1 d2 : string)
    (use ipc : bool) (kwargs : Kwargs) (fs : gmap string (list RDKitMol)) :
  lower d1 = lower d2 ->
  In (lower d1) ["mordred"; "padel"; "rdkit"; "rdkit_frag"] ->
  compute_descriptor tk (__init__ ms d1 use ipc) kwargs fs
  = compute_descriptor tk (__init__ ms d2 use ipc) kwargs fs.
Proof.
  intros Hcase Hsel. unfold compute_descriptor, __init__. cbn [desc_type mols use_fragment ipc_avg].
  rewrite <- Hcase. simpl in Hsel.
  destruct Hsel as [<-|[<-|[<-|[<-|[]]]]]; reflexivity.
Qed.

(** X8: with a registry of at most 115 descriptors the slice
    [Descriptors.descList[115:]] is empty, and [rdkit_fragment_descriptors]
    returns a table of one row per molecule and no column, without calling
    a descriptor function. *)
Theorem rdkit_fragment_descriptors_short_registry (ms : list RDKitMol) :
  length (descList tk) <= 115 ->
  rdkit_fragment_descriptors tk ms
  = Ok {| df_index := RangeIndex (length ms);
          df_columns := Index [];
          df_values := replicate (length ms) [] |}.
Proof.
  intros Hshort.
  assert (Hdrop : drop 115 (descList tk) = []) by now apply drop_ge.
  rewrite (rdkit_fragment_descriptors_rows tk ms (replicate (length ms) [])).
  - now rewrite Hdrop.
  - rewrite Hdrop. constructor.
  - unfold fragment_row. rewrite Hdrop. clear. induction ms; simpl; now constructor.
Qed.

End DescriptorDirectory.

Lemma compute_descriptor_selector_case_witness :
  DescriptorGenerator.compute_descriptor Demo.tk
    (DescriptorGenerator.__init__ [Demo.ethanol] "Mordred" true false) [] ∅
  = DescriptorGenerator.compute_descriptor Demo.tk
      (DescriptorGenerator.__init__ [Demo.ethanol] "MORDRED" true false) [] ∅.
Proof.
  apply (compute_descriptor_selector_case Demo.tk [Demo.ethanol] "Mordred" "MORDRED"
           true false [] ∅).
  - reflexivity.
  - vm_compute. tauto.
Defined.

Lemma rdkit_fragment_descriptors_short_registry_witness :
  DescriptorGenerator.rdkit_fragment_descriptors
    (Demo.with_descList [("MolWt", Demo.count_fn 0); ("fr_benzene", Demo.count_fn 300)])
    [Demo.ethanol; Demo.benzene]
  = Ok {| df_index := RangeIndex 2; df_columns := Index []; df_values := [[]; []] |}.
Proof.
  apply (rdkit_fragment_descriptors_short_registry
           (Demo.with_descList [("MolWt", Demo.count_fn 0); ("fr_benzene", Demo.count_fn 300)])
           [Demo.ethanol; Demo.benzene]).
  simpl. lia.
Defined.

(** ** [compute_fingerprint] *)

Section FingerprintRows.

Import FingerprintGenerator.
Variable tk : Toolkit.

(** X9: for the five exact type names, when RDKit returns a bit vector for
    every molecule and the vectors have one length, [compute_fingerprint]
    returns the table whose i-th row holds the bits of the i-th molecule's
    vector, as integers 0 and 1, indexed by the names computed by
    [__init__], with one column per bit. *)
Theorem compute_fingerprint_rows (ms : list RDKitMol) (fp : string)
    (n r mr rs : Z) (b1 b2 b3 : bool) (self : t) (fps : list ExplicitBitVect) :
  In fp ["SECFP"; "ECFP"; "Morgan"; "RDKFingerprint"; "MaCCSKeys"] ->
  __init__ tk ms fp n r mr rs b1 b2 b3 = Ok self ->
  Forall2 (fun mol v => rdkit_fingerprint_low tk mol fp n r mr rs b1 b2 b3 = Ok v) ms fps ->
  (forall v v', In v fps -> In v' fps -> length v = length v') ->
  compute_fingerprint tk self
  = Ok {| df_index := Index (map (MolToSmiles tk) ms);
          df_columns := RangeIndex (match fps with [] => 1 | v :: _ => length v end);
          df_values := map (map bit_cell) fps |}.
Proof.
  intros Hfp Hinit Hfps Hlen. rewrite init_inv in Hinit. injection Hinit as <-.
  unfold compute_fingerprint. cbn [fp_type mols n_bits radius min_radius random_seed
                                   rings isomeric kekulize mol_names].
  replace (str_in (upper fp) _) with true
    by (simpl in Hfp; destruct Hfp as [<-|[<-|[<-|[<-|[<-|[]]]]]]; reflexivity).
  rewrite (Forall2_comprehension _ _ _ Hfps). cbn [mbind Result_bind].
  pose proof (Forall2_length _ _ _ Hfps) as Hn.
  destruct fps as [|v fps'].
  - destruct ms; [reflexivity | discriminate].
  - unfold np_array.
    replace (forallb _ (v :: fps')) with true.
    + cbn [mbind Result_bind]. unfold pd_DataFrame_indexed. cbn [nd_cols nd_rows].
      rewrite !length_map, Hn, Nat.eqb_refl. reflexivity.
    + symmetry. apply forallb_forall. intros v' Hv'. apply Nat.eqb_eq.
      apply Hlen; [exact Hv' | now left].
Qed.

(** X10: the parameters a fingerprint type does not use have no effect:
    RDKFingerprint and MaCCSKeys tables do not depend on [radius],
    [min_radius], [random_seed], [rings], [isomeric] or [kekulize], and ECFP
    and Morgan tables depend on none of them but [radius] and [isomeric]. *)
Theorem compute_fingerprint_unused_parameters (g1 g2 : t) :
  mols g1 = mols g2 -> fp_type g1 = fp_type g2 -> n_bits g1 = n_bits g2 ->
  mol_names g1 = mol_names g2 ->
  In (fp_type g1) ["RDKFingerprint"; "MaCCSKeys"]
  \/ (In (fp_type g1) ["ECFP"; "Morgan"]
      /\ radius g1 = radius g2 /\ isomeric g1 = isomeric g2) ->
  compute_fingerprint tk g1 = compute_fingerprint tk g2.
Proof.
  intros Hmols Hfp Hbits Hnames Hcase. unfold compute_fingerprint.
  rewrite <- Hmols, <- Hfp, <- Hbits, <- Hnames.
  destruct (str_in _ _); [|reflexivity].
  erewrite comprehension_ext; [reflexivity|].
  intros mol. simpl in Hcase.
  destruct Hcase as [[E|[E|[]]]|([E|[E|[]]] & Hr & Hi)]; rewrite <- E;
    unfold rdkit_fingerprint_low; simpl; rewrite <- ?Hr, <- ?Hi; reflexivity.
Qed.

End FingerprintRows.

Lemma compute_fingerprint_rows_witness :
  exists self,
    FingerprintGenerator.__init__ Demo.tk [Demo.ethanol; Demo.benzene] "ECFP" 4 2 1 7
      true false false = Ok self
    /\ FingerprintGenerator.compute_fingerprint Demo.tk self
       = Ok {| df_index := Index ["CCO"; "c1ccccc1"];
               df_columns := RangeIndex 4;
               df_values := [[CInt 0; CInt 0; CInt 0; CInt 0];
                             [CInt 0; CInt 0; CInt 0; CInt 0]] |}.
Proof.
  eexists. split; [vm_compute; reflexivity|].
  apply (compute_fingerprint_rows Demo.tk [Demo.ethanol; Demo.benzene] "ECFP" 4 2 1 7
           true false false _ [Demo.zeros 4; Demo.zeros 4]).
  - vm_compute. tauto.
  - vm_compute. reflexivity.
  - repeat constructor.
  - intros v v' [<-|[<-|[]]] [<-|[<-|[]]]; reflexivity.
Defined.

Lemma compute_fingerprint_unused_parameters_witness :
  FingerprintGenerator.compute_fingerprint Demo.tk (Demo.morgan_generator_of "RDKFingerprint")
  = FingerprintGenerator.compute_fingerprint Demo.tk
      {| FingerprintGenerator.mols := [Demo.ethanol; Demo.benzene];
         FingerprintGenerator.fp_type := "RDKFingerprint";
         FingerprintGenerator.n_bits := 64;
         FingerprintGenerator.radius := 5;
         FingerprintGenerator.min_radius := 2;
         FingerprintGenerator.random_seed := 1;
         FingerprintGenerator.rings := false;
         FingerprintGenerator.isomeric := false;
         FingerprintGenerator.kekulize := true;
         FingerprintGenerator.mol_names := ["CCO"; "c1ccccc1"] |}.
Proof.
  apply (compute_fingerprint_unused_parameters Demo.tk
           (Demo.morgan_generator_of "RDKFingerprint")); try reflexivity.
  left. vm_compute. tauto.
Defined.

(** ** The fragment table and the [rdkit] table *)

Lemma comprehension_drop {A B} (f : A -> Result B) (n : nat) :
  forall (l : list A) (ys : list B),
  comprehension f l = Ok ys -> comprehension f (drop n l) = Ok (drop n ys).
Proof.
  induction n as [|n IH]; intros l ys H; [now rewrite !drop_0|].
  destruct l as [|x l]; simpl in H.
  - injection H as <-. reflexivity.
  - destruct (f x) as [y|e]; [|discriminate]. simpl in H.
    destruct (comprehension f l) as [ys'|e] eqn:Hl; [|discriminate].
    injection H as <-. simpl. now apply IH.
Qed.

Lemma comprehension_ext_Forall {A B} (f g : A -> Result B) (l : list A) :
  Forall (fun x => f x = g x) l -> comprehension f l = comprehension g l.
Proof.
  induction 1 as [|x l Hx _ IH]; [reflexivity|].
  simpl. now rewrite Hx, IH.
Qed.

Section FragmentTail.

Import DescriptorGenerator.
Variable tk : Toolkit.

(** X11: the table of [rdkit_fragment_descriptors] is the tail of the full
    [rdkit] table: when [rdkit_descriptors] returns with
    [use_fragment=True], the names from position 115 on are distinct, and
    the averaged Ipc variant is not used there, [rdkit_fragment_descriptors]
    returns too, its columns are the columns of the full table from
    position 115 on, and each of its rows is the row of the full table from
    position 115 on, converted to float64. *)
Theorem fragment_table_is_tail_of_rdkit_table (ms : list RDKitMol) (ipc_avg : PyVal)
    (df : DataFrame) :
  NoDup (map fst (drop 115 (descList tk))) ->
  Forall (fun d : string * DescFn => d.1 <> "Ipc") (drop 115 (descList tk))
  \/ truthy ipc_avg = false ->
  rdkit_descriptors tk ms (VBool true) ipc_avg [] = Ok df ->
  df_columns df = Index (map fst (descList tk))
  /\ rdkit_fragment_descriptors tk ms
     = Ok {| df_index := RangeIndex (length ms);
             df_columns := Index (drop 115 (map fst (descList tk)));
             df_values := map (fun row => map (float64 tk) (drop 115 row)) (df_values df) |}.
Proof.
  intros Hnd Hipc Hdf.
  rewrite rdkit_descriptors_unfold in Hdf. cbv beta iota in Hdf.
  rewrite (filter_all (keep_descriptor (VBool true))) in Hdf by reflexivity.
  destruct (comprehension _ ms) as [rows|e] eqn:Hrows; [|discriminate].
  cbn [mbind Result_bind] in Hdf. apply pd_DataFrame_rows_inv in Hdf. subst df.
  cbn [df_columns df_values]. split; [reflexivity|].
  rewrite skipn_map.
  apply rdkit_fragment_descriptors_rows; [exact Hnd|].
  apply Forall2_fmap_r. apply comprehension_Forall2 in Hrows.
  eapply Forall2_impl; [exact Hrows|]. intros mol row Hrow. cbv beta in Hrow.
  unfold rdkit_row in Hrow.
  rewrite (filter_all (keep_descriptor (VBool true))) in Hrow by reflexivity.
  apply (comprehension_drop _ 115) in Hrow.
  unfold fragment_row. rewrite (dict_of_distinct _ Hnd).
  rewrite (comprehension_ext_Forall (fun d : string * DescFn => fn d.2 mol)
             (descriptor_value mol ipc_avg)).
  - rewrite Hrow. reflexivity.
  - destruct Hipc as [Hnames|Hfalse].
    + eapply Forall_impl; [exact Hnames|]. intros d Hd. cbv beta in Hd.
      symmetry. now apply descriptor_value_not_Ipc.
    + apply Forall_forall. intros d _. unfold descriptor_value.
      rewrite Hfalse, andb_false_r. reflexivity.
Qed.

End FragmentTail.

Lemma fragment_table_is_tail_of_rdkit_table_witness :
  exists df,
    DescriptorGenerator.rdkit_descriptors Demo.tk [Demo.ethanol; Demo.benzene]
      (VBool true) (VBool true) [] = Ok df
    /\ DescriptorGenerator.rdkit_fragment_descriptors Demo.tk [Demo.ethanol; Demo.benzene]
       = Ok {| df_index := RangeIndex 2;
               df_columns := Index ["fr_Al_OH"; "fr_benzene"];
               df_values := map (fun row => map (float64 Demo.tk) (drop 115 row))
                                (df_values df) |}.
Proof.
  destruct (DescriptorGenerator.rdkit_descriptors Demo.tk [Demo.ethanol; Demo.benzene]
              (VBool true) (VBool true) []) as [df|e] eqn:Hdf;
    [|vm_compute in Hdf; discriminate].
  exists df. split; [reflexivity|].
  apply (fragment_table_is_tail_of_rdkit_table Demo.tk [Demo.ethanol; Demo.benzene]
           (VBool true) df).
  - exact demo_fragment_names_distinct.
  - left. vm_compute. repeat constructor; discriminate.
  - exact Hdf.
Defined.
